(** * Global Rehydration System: a shallow embedding of [global_rehydrate.py]

    The class [GlobalRehydrationSystem] is embedded as a record (the object)
    and one function per method.  A method takes the object and returns the
    updated object, the external actions it performed, and either its return
    value or the exception it raised.

    What the surroundings of the process decide (the operating system name,
    the clock, the file system, the child process) is read from a [Host]
    record, so every method is a function and can be evaluated.

    Of the console output the model keeps what can fail: the lines that
    carry the marks U+2713 and U+2717, which [sys.stdout] may be unable to
    encode.  The texts of the model are ASCII texts, which every encoding of
    [sys.stdout] accepts, so no other [print] raises.  Writing the state file
    always succeeds. *)

From Stdlib Require Import String Ascii List ZArith Bool Arith Lia.
Import ListNotations.

Local Open Scope string_scope.
Local Open Scope list_scope.

(** ** Python values used by the module *)

Section PythonPrimitives.

(** [str.lower] on the ASCII letters.  No character outside ASCII has a
    lower-case form that is one of the letters of "windows", "linux" or
    "darwin", so comparisons with those words are exact. *)
Definition lower_char (c : ascii) : ascii :=
  let n := nat_of_ascii c in
  if (65 <=? n)%nat && (n <=? 90)%nat then ascii_of_nat (n + 32) else c.

Fixpoint lower (s : string) : string :=
  match s with
  | EmptyString => EmptyString
  | String c rest => String (lower_char c) (lower rest)
  end.

(** [x in l] for a list of strings. *)
Definition str_in (x : string) (l : list string) : bool :=
  existsb (String.eqb x) l.

(** [d.get(key, default)] where [None] stands for an absent key. *)
Definition get_or {A : Type} (v : option A) (default : A) : A :=
  match v with
  | Some a => a
  | None => default
  end.

(** [d.get(key) == s] : an absent key gives [None], which equals no string. *)
Definition get_eqb (v : option string) (s : string) : bool :=
  match v with
  | Some a => String.eqb a s
  | None => false
  end.

(** [l[start:]] with Python's treatment of negative and too large bounds. *)
Definition slice_from {A : Type} (l : list A) (start : Z) : list A :=
  let n := Z.of_nat (length l) in
  let lo := if (start <? 0)%Z then Z.max (start + n) 0 else Z.min start n in
  skipn (Z.to_nat lo) l.

(** [needle in haystack] for strings (substring test). *)
Fixpoint contains (haystack needle : string) : bool :=
  if prefix needle haystack then true
  else match haystack with
       | EmptyString => false
       | String _ rest => contains rest needle
       end.

End PythonPrimitives.

(** ** Data model *)

(** The exceptions the module raises or receives; each carries [str(e)]. *)
Inductive Exception : Type :=
| ValueError (msg : string)
| FileNotFoundError (msg : string)
| OSError (msg : string)
| UnicodeError (msg : string).

Definition str_exc (e : Exception) : string :=
  match e with
  | ValueError msg => msg
  | FileNotFoundError msg => msg
  | OSError msg => msg
  | UnicodeError msg => msg
  end.

Inductive Raises (A : Type) : Type :=
| Return (a : A)
| Raise (e : Exception).

Arguments Return {A} a.
Arguments Raise {A} e.

(** [global_config.json]; only the two keys the coordinator reads. *)
Record Config : Type := {
  default_environment : option string;
  verify_integrity_by_default : option bool
}.

(** One entry of the manifest's ["scripts"] list. *)
Record ScriptInfo : Type := {
  script_platform : string;
  script_path : string
}.

(** [manifest.json]; [None] when the ["scripts"] key is absent (also the
    case of the empty manifest used when the file does not exist). *)
Record Manifest : Type := {
  scripts : option (list ScriptInfo)
}.

(** The dictionary [rehydration_record]; [None] is an absent key. *)
Record RehydrationRecord : Type := {
  rec_timestamp : string;
  rec_environment : string;
  rec_platform : string;
  rec_verify_integrity : bool;
  rec_status : string;
  rec_returncode : option Z;
  rec_output : option string;
  rec_error : option string
}.

(** The dictionary [self.state]; [None] is an absent key (for
    [last_rehydration] also the value [None]). *)
Record GlobalState : Type := {
  last_rehydration : option string;
  rehydration_history : option (list RehydrationRecord);
  active_environments : option (list string);
  system_status : option string
}.

(** The value returned by [_execute_platform_script]. *)
Record ExecutionResult : Type := {
  exec_success : bool;
  exec_returncode : Z;
  exec_stdout : string;
  exec_stderr : string
}.

(** The value returned by [rehydrate]. *)
Record RehydrationResult : Type := {
  res_success : bool;
  res_message : string;
  res_skipped : option bool;
  res_details : option RehydrationRecord
}.

(** The object: configuration, state and manifest as loaded by [__init__],
    and the content of [global_state.json] ([None]: the file does not
    exist). *)
Record GlobalRehydrationSystem : Type := {
  config : Config;
  state : GlobalState;
  manifest : Manifest;
  state_file : option GlobalState
}.

(** What [subprocess.run] does with a command line: it returns the exit
    code and the decoded output of the child process, or it raises.  It
    raises before a process exists ([started] false: the interpreter is not
    installed) or after the process has run and exited ([started] true: the
    output cannot be decoded as text). *)
Inductive RunOutcome : Type :=
| Completed (returncode : Z) (stdout stderr : string)
| Failed (started : bool) (e : Exception).

(** What [sys.stdout] does with the two marks the module prints, U+2713
    (in the line printed after a successful run) and U+2717 (in the lines
    printed after a failed run and in the [except] block): it encodes them,
    or [print] raises the given [UnicodeEncodeError].  Each of Python's text
    encodings that has U+2717 has U+2713 too (the UTF family and GB 18030
    have both, the JIS X 0213 family has only U+2713, the code pages have
    neither). *)
Inductive Console : Type :=
| EncodesBoth
| EncodesCheckOnly (cross : Exception)
| EncodesNeither (check cross : Exception).

(** The surroundings of one call. *)
Record Host : Type := {
  (** [platform.system()] *)
  platform_system : string;
  (** [datetime.now(timezone.utc).isoformat()] when the record is created *)
  now_started : string;
  (** the same clock, read after a successful run *)
  now_finished : string;
  (** [str(self.base_path / p)] *)
  script_location : string -> string;
  (** [Path.exists] *)
  path_exists : string -> bool;
  (** [subprocess.run(cmd, capture_output=True, text=True)] *)
  subprocess_run : list string -> RunOutcome;
  (** the encoding of [sys.stdout] *)
  console : Console
}.

(** [print] of a line with U+2713: [None] when it is printed, else the
    exception raised. *)
Definition print_check (w : Host) : option Exception :=
  match console w with
  | EncodesBoth => None
  | EncodesCheckOnly _ => None
  | EncodesNeither check _ => Some check
  end.

(** [print] of a line with U+2717. *)
Definition print_cross (w : Host) : option Exception :=
  match console w with
  | EncodesBoth => None
  | EncodesCheckOnly cross => Some cross
  | EncodesNeither _ cross => Some cross
  end.

(** Actions visible outside the process: a child process started with a
    command line, and the state file written. *)
Inductive Effect : Type :=
| Exec (cmd : list string)
| WriteState (s : GlobalState).

(** The result of running a method. *)
Record Run (A : Type) : Type := {
  obj : GlobalRehydrationSystem;
  effects : list Effect;
  value : Raises A
}.

Arguments obj {A} r.
Arguments effects {A} r.
Arguments value {A} r.

(** ** Methods *)

(** The state used when [global_state.json] does not exist, and the one
    [reset] installs. *)
Definition empty_state : GlobalState :=
  {| last_rehydration := None;
     rehydration_history := Some [];
     active_environments := Some [];
     system_status := Some "uninitialized" |}.

Definition _load_state (file : option GlobalState) : GlobalState :=
  get_or file empty_state.

(** [__init__] for given file contents. *)
Definition init (c : Config) (m : Manifest) (file : option GlobalState)
  : GlobalRehydrationSystem :=
  {| config := c; state := _load_state file; manifest := m; state_file := file |}.

Definition with_state (self : GlobalRehydrationSystem) (s : GlobalState)
  : GlobalRehydrationSystem :=
  {| config := config self; state := s; manifest := manifest self;
     state_file := state_file self |}.

Definition _save_state (self : GlobalRehydrationSystem)
  : GlobalRehydrationSystem * list Effect :=
  ({| config := config self; state := state self; manifest := manifest self;
      state_file := Some (state self) |},
   [WriteState (state self)]).

Definition _detect_platform (w : Host) : string :=
  let system := lower (platform_system w) in
  if String.eqb system "windows" then "windows"
  else if str_in system ["linux"; "darwin"] then "linux"
  else "linux".

Fixpoint first_for_platform (l : list ScriptInfo) (platform_name : string)
  : option ScriptInfo :=
  match l with
  | [] => None
  | script :: rest =>
      if String.eqb (script_platform script) platform_name then Some script
      else first_for_platform rest platform_name
  end.

Definition _get_script_for_platform
  (self : GlobalRehydrationSystem) (platform_name : string) : option ScriptInfo :=
  first_for_platform (get_or (scripts (manifest self)) []) platform_name.

(** The command line built for a script. *)
Definition build_command (script_info : ScriptInfo) (location : string)
  (environment : string) (verify_integrity : bool) : list string :=
  if String.eqb (script_platform script_info) "windows" then
    ["powershell"; "-ExecutionPolicy"; "Bypass"; "-File"; location;
     "-Environment"; environment]
      ++ (if verify_integrity then ["-VerifyIntegrity"] else [])
  else
    ["bash"; location; ("--environment=" ++ environment)%string]
      ++ (if verify_integrity then ["--verify"] else []).

Definition _execute_platform_script (w : Host) (script_info : ScriptInfo)
  (environment : string) (verify_integrity : bool)
  : list Effect * Raises ExecutionResult :=
  let location := script_location w (script_path script_info) in
  if negb (path_exists w location) then
    ([], Raise (FileNotFoundError ("Script not found: " ++ location)%string))
  else
    let cmd := build_command script_info location environment verify_integrity in
    match subprocess_run w cmd with
    | Failed started e => (if started then [Exec cmd] else [], Raise e)
    | Completed returncode stdout stderr =>
        ([Exec cmd],
         Return {| exec_success := (returncode =? 0)%Z;
                   exec_returncode := returncode;
                   exec_stdout := stdout;
                   exec_stderr := stderr |})
    end.

(** The idempotency test at the head of [rehydrate]. *)
Definition already_hydrated (self : GlobalRehydrationSystem)
  (environment : string) (force : bool) : bool :=
  if negb force && get_eqb (system_status (state self)) "hydrated" then
    if str_in environment (get_or (active_environments (state self)) []) then true
    else false
  else false.

(** [self.state.setdefault("rehydration_history", []).append(record)] *)
Definition append_history (s : GlobalState) (record : RehydrationRecord)
  : GlobalState :=
  {| last_rehydration := last_rehydration s;
     rehydration_history := Some (get_or (rehydration_history s) [] ++ [record]);
     active_environments := active_environments s;
     system_status := system_status s |}.

(** The three updates of the state after a run with exit code 0. *)
Definition mark_hydrated (s : GlobalState) (now environment : string)
  : GlobalState :=
  {| last_rehydration := Some now;
     rehydration_history := rehydration_history s;
     active_environments :=
       if negb (str_in environment (get_or (active_environments s) [])) then
         Some (get_or (active_environments s) [] ++ [environment])
       else active_environments s;
     system_status := Some "hydrated" |}.

(** The defaults taken from the configuration for arguments left [None]. *)
Definition resolve_environment (self : GlobalRehydrationSystem)
  (environment : option string) : string :=
  match environment with
  | Some e => e
  | None => get_or (default_environment (config self)) "development"
  end.

Definition resolve_verify_integrity (self : GlobalRehydrationSystem)
  (verify_integrity : option bool) : bool :=
  match verify_integrity with
  | Some v => v
  | None => get_or (verify_integrity_by_default (config self)) true
  end.

(** The two assignments at the head of the [except] block. *)
Definition as_error (rehydration_record : RehydrationRecord) (e : Exception)
  : RehydrationRecord :=
  {| rec_timestamp := rec_timestamp rehydration_record;
     rec_environment := rec_environment rehydration_record;
     rec_platform := rec_platform rehydration_record;
     rec_verify_integrity := rec_verify_integrity rehydration_record;
     rec_status := "error";
     rec_returncode := rec_returncode rehydration_record;
     rec_output := rec_output rehydration_record;
     rec_error := Some (str_exc e) |}.

(** The [except] block of [rehydrate], entered with the object and the
    record as the [try] block left them and with the exception caught.  The
    record is appended and the state written; then the line with U+2717 is
    printed, and an exception raised there leaves [rehydrate]. *)
Definition rehydrate_except (self : GlobalRehydrationSystem) (w : Host)
  (rehydration_record : RehydrationRecord) (ran : list Effect) (e : Exception)
  : Run RehydrationResult :=
  let rehydration_record := as_error rehydration_record e in
  let (saved, wrote) :=
    _save_state (with_state self (append_history (state self) rehydration_record)) in
  {| obj := saved; effects := ran ++ wrote;
     value := match print_cross w with
              | Some raised => Raise raised
              | None =>
                  Return {| res_success := false;
                            res_message := ("Error: " ++ str_exc e)%string;
                            res_skipped := None;
                            res_details := Some rehydration_record |}
              end |}.

(** [rehydrate].  In the [try] block [_execute_platform_script] can raise,
    and so can the [print] of the line with U+2713 (after the state was
    updated) or with U+2717 (after a failed run); both come before the
    record is appended. *)
Definition rehydrate (self : GlobalRehydrationSystem) (w : Host)
  (environment : option string) (verify_integrity : option bool) (force : bool)
  : Run RehydrationResult :=
  let environment := resolve_environment self environment in
  let verify_integrity := resolve_verify_integrity self verify_integrity in
  if already_hydrated self environment force then
    {| obj := self; effects := [];
       value := Return {| res_success := true;
                          res_message := "Already hydrated";
                          res_skipped := Some true;
                          res_details := None |} |}
  else
    let current_platform := _detect_platform w in
    match _get_script_for_platform self current_platform with
    | None =>
        {| obj := self; effects := [];
           value := Raise (ValueError
                      ("No script found for platform: " ++ current_platform)%string) |}
    | Some script_info =>
        let rehydration_record :=
          {| rec_timestamp := now_started w;
             rec_environment := environment;
             rec_platform := current_platform;
             rec_verify_integrity := verify_integrity;
             rec_status := "in_progress";
             rec_returncode := None;
             rec_output := None;
             rec_error := None |} in
        match _execute_platform_script w script_info environment verify_integrity with
        | (ran, Return result) =>
            let rehydration_record :=
              {| rec_timestamp := rec_timestamp rehydration_record;
                 rec_environment := rec_environment rehydration_record;
                 rec_platform := rec_platform rehydration_record;
                 rec_verify_integrity := rec_verify_integrity rehydration_record;
                 rec_status := if exec_success result then "success" else "failed";
                 rec_returncode := Some (exec_returncode result);
                 rec_output := Some (exec_stdout result);
                 rec_error := rec_error rehydration_record |} in
            let updated :=
              if exec_success result then
                mark_hydrated (state self) (now_finished w) environment
              else state self in
            match (if exec_success result then print_check w else print_cross w) with
            | Some raised =>
                rehydrate_except (with_state self updated) w rehydration_record
                  ran raised
            | None =>
                let (saved, wrote) :=
                  _save_state
                    (with_state self (append_history updated rehydration_record)) in
                {| obj := saved; effects := ran ++ wrote;
                   value := Return {| res_success := exec_success result;
                                      res_message :=
                                        if exec_success result
                                        then "Rehydration completed"
                                        else "Rehydration failed";
                                      res_skipped := None;
                                      res_details := Some rehydration_record |} |}
            end
        | (ran, Raise e) => rehydrate_except self w rehydration_record ran e
        end
    end.

(** [get_history(limit)].  The argument is an integer or Python's [None]
    (the [None] here); both 0 and [None] are false in the test [if limit]. *)
Definition get_history (self : GlobalRehydrationSystem) (limit : option Z)
  : list RehydrationRecord :=
  let history := get_or (rehydration_history (state self)) [] in
  match limit with
  | Some n => if (n =? 0)%Z then history else slice_from history (- n)
  | None => history
  end.

(** [get_history()]: the caller leaves [limit] out and the default of the
    signature, 10, applies (the command line option has the same default). *)
Definition default_limit : Z := 10.

Definition get_history_default (self : GlobalRehydrationSystem)
  : list RehydrationRecord :=
  get_history self (Some default_limit).

Definition reset (self : GlobalRehydrationSystem) : Run unit :=
  let (saved, wrote) := _save_state (with_state self empty_state) in
  {| obj := saved; effects := wrote; value := Return tt |}.

(** ** Sequences of calls on one object *)

(** The commands of [main] that change the object.  Each command line run
    builds a new object from the files ([CallRestart]); the configuration and
    the manifest are read-only and stay as they are. *)
Inductive Call : Type :=
| CallRehydrate (w : Host) (environment : option string)
    (verify_integrity : option bool) (force : bool)
| CallReset
| CallRestart.

(** What the caller sees of a call. *)
Inductive Seen : Type :=
| SawResult (r : RehydrationResult)
| SawException (e : Exception)
| SawReset
| SawRestart.

Definition call (self : GlobalRehydrationSystem) (c : Call)
  : GlobalRehydrationSystem * list Effect * Seen :=
  match c with
  | CallRehydrate w environment verify_integrity force =>
      let r := rehydrate self w environment verify_integrity force in
      (obj r, effects r,
       match value r with
       | Return res => SawResult res
       | Raise e => SawException e
       end)
  | CallReset =>
      let r := reset self in (obj r, effects r, SawReset)
  | CallRestart =>
      (init (config self) (manifest self) (state_file self), [], SawRestart)
  end.

Fixpoint run_calls (self : GlobalRehydrationSystem) (calls : list Call)
  : GlobalRehydrationSystem * list Effect * list Seen :=
  match calls with
  | [] => (self, [], [])
  | c :: rest =>
      let '(self1, done1, seen1) := call self c in
      let '(self2, done2, seen2) := run_calls self1 rest in
      (self2, done1 ++ done2, seen1 :: seen2)
  end.

(** ** Vocabulary of the properties *)

Definition history_of (s : GlobalState) : list RehydrationRecord :=
  get_or (rehydration_history s) [].

Definition active_of (s : GlobalState) : list string :=
  get_or (active_environments s) [].

(** The statuses a finished attempt can have. *)
Definition terminal (status : string) : Prop :=
  status = "success" \/ status = "failed" \/ status = "error".

Definition no_in_progress (s : GlobalState) : Prop :=
  Forall (fun r => rec_status r <> "in_progress") (history_of s).

(** The states written to [global_state.json] by a list of actions. *)
Fixpoint writes (done : list Effect) : list GlobalState :=
  match done with
  | [] => []
  | WriteState s :: rest => s :: writes rest
  | Exec _ :: rest => writes rest
  end.

(** The command lines run by a list of actions. *)
Fixpoint execs (done : list Effect) : list (list string) :=
  match done with
  | [] => []
  | Exec cmd :: rest => cmd :: execs rest
  | WriteState _ :: rest => execs rest
  end.

Definition is_reset (s : Seen) : bool :=
  match s with
  | SawReset => true
  | _ => false
  end.

(** The part of what was seen that follows the last reset (all of it when
    there was none). *)
Fixpoint since_last_reset (seen : list Seen) : list Seen :=
  match seen with
  | [] => []
  | s :: rest =>
      if existsb is_reset rest then since_last_reset rest
      else if is_reset s then rest
      else s :: rest
  end.

(** A call that returned the record of an attempt with status "success". *)
Definition successful_attempt (s : Seen) : Prop :=
  exists res record,
    s = SawResult res /\ res_details res = Some record /\
    rec_status record = "success".

(** The object holds what the state file holds (or the empty state when
    there is no file). *)
Definition in_step (self : GlobalRehydrationSystem) : Prop :=
  _load_state (state_file self) = state self.

(** The status is one of the two the coordinator writes, and it is
    "hydrated" exactly when a successful attempt was seen since the last
    reset. *)
Definition status_tracks (self : GlobalRehydrationSystem) (seen : list Seen)
  : Prop :=
  (system_status (state self) = Some "hydrated" /\
   Exists successful_attempt (since_last_reset seen))
  \/
  (system_status (state self) = Some "uninitialized" /\
   ~ Exists successful_attempt (since_last_reset seen)).


(** ** Sample objects *)

Module Sample.

Definition cfg : Config :=
  {| default_environment := None; verify_integrity_by_default := None |}.

Definition both_platforms : Manifest :=
  {| scripts := Some [ {| script_platform := "windows"; script_path := "rehydrate.ps1" |};
                       {| script_platform := "linux"; script_path := "rehydrate.sh" |} ] |}.


(** A Linux host on which every path exists and the script behaves as
    [outcome]. *)
Definition linux (present : bool) (outcome : RunOutcome) : Host :=
  {| platform_system := "Linux";
     now_started := "2024-01-01T00:00:00+00:00";
     now_finished := "2024-01-01T00:00:05+00:00";
     script_location := fun p => ("/opt/rehydrate/" ++ p)%string;
     path_exists := fun _ => present;
     subprocess_run := fun _ => outcome;
     console := EncodesBoth |}.

(** The code page of a Windows console whose output is redirected. *)
Definition cp1252 : Console :=
  EncodesNeither
    (UnicodeError
       "'charmap' codec can't encode character '\u2713' in position 1: character maps to <undefined>")
    (UnicodeError
       "'charmap' codec can't encode character '\u2717' in position 1: character maps to <undefined>").

(** A Windows host with that console. *)
Definition redirected (present : bool) (outcome : RunOutcome) : Host :=
  {| platform_system := "Windows";
     now_started := "2024-01-01T00:00:00+00:00";
     now_finished := "2024-01-01T00:00:05+00:00";
     script_location := fun p => ("C:/rehydrate/" ++ p)%string;
     path_exists := fun _ => present;
     subprocess_run := fun _ => outcome;
     console := cp1252 |}.

Definition fresh : GlobalRehydrationSystem := init cfg both_platforms None.

Definition record_at (stamp : string) : RehydrationRecord :=
  {| rec_timestamp := stamp;
     rec_environment := "production";
     rec_platform := "linux";
     rec_verify_integrity := true;
     rec_status := "success";
     rec_returncode := Some 0%Z;
     rec_output := Some "";
     rec_error := None |}.

Definition hydrated_state (stamps : list string) : GlobalState :=
  {| last_rehydration := Some "2023-12-31T00:00:00+00:00";
     rehydration_history := Some (map record_at stamps);
     active_environments := Some ["production"];
     system_status := Some "hydrated" |}.

Definition hydrated (m : Manifest) (stamps : list string)
  : GlobalRehydrationSystem :=
  init cfg m (Some (hydrated_state stamps)).

Definition five : list string := ["t1"; "t2"; "t3"; "t4"; "t5"].

Definition eleven : list string :=
  ["t01"; "t02"; "t03"; "t04"; "t05"; "t06"; "t07"; "t08"; "t09"; "t10"; "t11"].

End Sample.

(** ** The rest of the class, and the command line *)

(** The dictionary [_load_config] returns when [global_config.json] does not
    exist (the keys the coordinator reads). *)
Definition default_config : Config :=
  {| default_environment := Some "development";
     verify_integrity_by_default := Some true |}.

Definition _load_config (file : option Config) : Config :=
  get_or file default_config.

(** Without [manifest.json] the manifest is the empty dictionary. *)
Definition _load_manifest (file : option Manifest) : Manifest :=
  get_or file {| scripts := None |}.

(** The three files read by [__init__]; [None] is a file that does not
    exist. *)
Record Files : Type := {
  config_json : option Config;
  state_json : option GlobalState;
  manifest_json : option Manifest
}.

(** [GlobalRehydrationSystem()] *)
Definition startup (files : Files) : GlobalRehydrationSystem :=
  init (_load_config (config_json files))
       (_load_manifest (manifest_json files))
       (state_json files).

(** The dictionary returned by [get_status]. *)
Record Status : Type := {
  st_system_status : string;
  st_active_environments : list string;
  st_last_rehydration : option string;
  st_total_rehydrations : nat
}.

Definition get_status (self : GlobalRehydrationSystem) : Status :=
  {| st_system_status := get_or (system_status (state self)) "uninitialized";
     st_active_environments := get_or (active_environments (state self)) [];
     st_last_rehydration := last_rehydration (state self);
     st_total_rehydrations :=
       length (get_or (rehydration_history (state self)) []) |}.

(** The arguments as [argparse] hands them to [main]. *)
Inductive Command : Type :=
| Rehydrate (environment : option string) (verify no_verify force : bool)
| ShowStatus
| ShowHistory (limit : Z)
| Reset (confirm : bool).

(** What a run of the program leaves behind: the state file, the actions
    performed, and the exit code (or the exception that ended the run). *)
Record Exit : Type := {
  left_state_file : option GlobalState;
  performed : list Effect;
  code : Raises Z
}.

(** [main]; [None] is a command line without a command. *)
Definition main (files : Files) (w : Host) (args : option Command) : Exit :=
  match args with
  | None =>
      {| left_state_file := state_json files; performed := [];
         code := Return 1%Z |}
  | Some command =>
      let grs := startup files in
      match command with
      | Rehydrate environment verify no_verify force =>
          let verify_integrity :=
            if verify then Some true
            else if no_verify then Some false
            else None in
          let r := rehydrate grs w environment verify_integrity force in
          {| left_state_file := state_file (obj r);
             performed := effects r;
             code := match value r with
                     | Return result =>
                         Return (if res_success result then 0%Z else 1%Z)
                     | Raise e => Raise e
                     end |}
      | ShowStatus =>
          let status := get_status grs in
          {| left_state_file := state_file grs; performed := [];
             code := Return 0%Z |}
      | ShowHistory limit =>
          let history := get_history grs (Some limit) in
          {| left_state_file := state_file grs; performed := [];
             code := Return 0%Z |}
      | Reset confirm =>
          if negb confirm then
            {| left_state_file := state_file grs; performed := [];
               code := Return 1%Z |}
          else
            let r := reset grs in
            {| left_state_file := state_file (obj r);
               performed := effects r;
               code := Return 0%Z |}
      end
  end.

(** ** Vocabulary of the further properties *)

(** The records of the attempts among what was seen, oldest first. *)
Definition records_of (seen : list Seen) : list RehydrationRecord :=
  flat_map (fun s =>
              match s with
              | SawResult res =>
                  match res_details res with
                  | Some record => [record]
                  | None => []
                  end
              | _ => []
              end) seen.

(** The three shapes of a record written by [rehydrate]. *)
Definition succeeded (r : RehydrationRecord) : Prop :=
  rec_status r = "success" /\ rec_returncode r = Some 0%Z /\
  rec_output r <> None /\ rec_error r = None.

Definition failed (r : RehydrationRecord) : Prop :=
  rec_status r = "failed" /\
  (exists returncode, rec_returncode r = Some returncode /\ returncode <> 0%Z) /\
  rec_output r <> None /\ rec_error r = None.

Definition errored (r : RehydrationRecord) : Prop :=
  rec_status r = "error" /\ rec_returncode r = None /\
  rec_output r = None /\ rec_error r <> None.

(** The shape of a record whose attempt ran the script and then raised in
    the [try] block: the return code and the output stay in the record. *)
Definition interrupted (r : RehydrationRecord) : Prop :=
  rec_status r = "error" /\ rec_returncode r <> None /\
  rec_output r <> None /\ rec_error r <> None.

Definition well_formed (r : RehydrationRecord) : Prop :=
  (succeeded r \/ failed r \/ errored r \/ interrupted r) /\
  (rec_platform r = "windows" \/ rec_platform r = "linux").

(** How the [except] block ends: with the exception of its [print], or with
    the result that carries the record. *)
Definition reports_failure (w : Host) (record : RehydrationRecord)
  (v : Raises RehydrationResult) : Prop :=
  match print_cross w with
  | Some raised => v = Raise raised
  | None =>
      exists res,
        v = Return res /\ res_success res = false /\
        res_skipped res = None /\ res_details res = Some record
  end.

(** A property of the hosts of the [rehydrate] calls of a sequence. *)
Definition on_host (Q : Host -> Prop) (c : Call) : Prop :=
  match c with
  | CallRehydrate w _ _ _ => Q w
  | _ => True
  end.


(** The active environments are those of the successful records. *)
Definition active_matches_history (s : GlobalState) : Prop :=
  forall environment,
    In environment (active_of s) <->
    exists r, In r (history_of s) /\ rec_status r = "success" /\
              rec_environment r = environment.

(** The status, the time of the last rehydration and the active
    environments are set together. *)
Definition set_together (s : GlobalState) : Prop :=
  (system_status s = Some "hydrated" /\ last_rehydration s <> None /\
   active_of s <> [])
  \/
  (system_status s = Some "uninitialized" /\ last_rehydration s = None /\
   active_of s = []).

Module SampleFiles.


Definition with_manifest : Files :=
  {| config_json := None; state_json := None;
     manifest_json := Some Sample.both_platforms |}.

Definition hydrated : Files :=
  {| config_json := None;
     state_json := Some (Sample.hydrated_state Sample.five);
     manifest_json := Some Sample.both_platforms |}.

Definition windows : Host :=
  {| platform_system := "Windows";
     now_started := "2024-01-01T00:00:00+00:00";
     now_finished := "2024-01-01T00:00:05+00:00";
     script_location := fun p => ("C:/rehydrate/" ++ p)%string;
     path_exists := fun _ => true;
     subprocess_run := fun _ => Completed 0 "done" "";
     console := EncodesBoth |}.

End SampleFiles.

(** ** Basic facts *)

Lemma str_in_In (x : string) (l : list string) :
  str_in x l = true <-> In x l.
Proof.
  unfold str_in. rewrite existsb_exists. split.
  - intros [y [Hy Heq]]. apply String.eqb_eq in Heq. now subst.
  - intros Hin. exists x. split; [assumption | apply String.eqb_refl].
Qed.

Lemma get_eqb_eq (v : option string) (s : string) :
  get_eqb v s = true <-> v = Some s.
Proof.
  destruct v as [a|]; simpl.
  - rewrite String.eqb_eq. split; congruence.
  - split; discriminate.
Qed.

Lemma writes_app (a b : list Effect) : writes (a ++ b) = writes a ++ writes b.
Proof.
  induction a as [|[cmd|s] a IH]; simpl; [reflexivity | assumption |].
  now rewrite IH.
Qed.

Lemma execute_writes_nothing w script_info environment verify_integrity :
  writes (fst (_execute_platform_script w script_info environment verify_integrity)) = [].
Proof.
  unfold _execute_platform_script.
  destruct (path_exists w _); simpl; [|reflexivity].
  destruct (subprocess_run w _) as [returncode stdout stderr|[|] e]; reflexivity.
Qed.

(** ** The idempotency gate *)




(** ** The missing script entry *)




(** ** The platform of the host *)

(** C9, as the claim states it, fails: this name contains "windows" and is
    resolved to "linux". *)
Lemma name_containing_windows_is_linux :
  let w := {| platform_system := "windows_nt";
              now_started := ""; now_finished := "";
              script_location := fun p => p;
              path_exists := fun _ => true;
              subprocess_run := fun _ => Completed 0 "" "";
              console := EncodesBoth |} in
  contains (platform_system w) "windows" = true /\
  _detect_platform w = "linux" /\
  _detect_platform w <> "windows".
Proof. repeat split. discriminate. Qed.

(** C9 (amended).  The resolver is a total function of the name of the
    operating system with two values: "windows" exactly when the name in
    lower case equals "windows", and "linux" for every other name, "linux"
    and "darwin" among them. *)
Theorem detect_platform_by_equality (w : Host) :
  (_detect_platform w = "windows" \/ _detect_platform w = "linux") /\
  (_detect_platform w = "windows" <-> lower (platform_system w) = "windows") /\
  (_detect_platform w = "linux" <-> lower (platform_system w) <> "windows").
Proof.
  unfold _detect_platform. cbv zeta.
  destruct (String.eqb_spec (lower (platform_system w)) "windows") as [He|Hn].
  - split; [now left | split; split].
    + intros _. exact He.
    + reflexivity.
    + discriminate.
    + intros Hn. now elim Hn.
  - assert (Hlinux : (if str_in (lower (platform_system w)) ["linux"; "darwin"]
                      then "linux" else "linux") = "linux")
      by now destruct (str_in _ _).
    rewrite Hlinux. split; [now right | split; split].
    + discriminate.
    + intros He. now elim Hn.
    + intros _. exact Hn.
    + reflexivity.
Qed.

Lemma detect_platform_by_equality_witness :
  _detect_platform (Sample.linux true (Completed 0 "" "")) = "linux".
Proof.
  apply (proj2 (proj2 (detect_platform_by_equality
                         (Sample.linux true (Completed 0 "" ""))))).
  discriminate.
Defined.

Example detect_platform_names :
  map (fun name => _detect_platform
                     {| platform_system := name;
                        now_started := ""; now_finished := "";
                        script_location := fun p => p;
                        path_exists := fun _ => true;
                        subprocess_run := fun _ => Completed 0 "" "";
                        console := EncodesBoth |})
      ["Windows"; "Linux"; "Darwin"; "Java"; ""; "Microsoft Windows"]
  = ["windows"; "linux"; "linux"; "linux"; "linux"; "linux"].
Proof. reflexivity. Qed.

(** ** Reading the history *)

Section Slices.

Context {A : Type}.
Implicit Types (l : list A) (k : Z).

Lemma slice_from_minus l k :
  (0 < k)%Z -> slice_from l (- k) = skipn (length l - Z.to_nat k) l.
Proof.
  intros Hk. unfold slice_from.
  destruct (Z.ltb_spec (- k) 0) as [_|Hge]; [|lia].
  f_equal. lia.
Qed.

Lemma slice_from_plus l k :
  (0 <= k)%Z -> slice_from l k = skipn (Nat.min (Z.to_nat k) (length l)) l.
Proof.
  intros Hk. unfold slice_from.
  destruct (Z.ltb_spec k 0) as [Hlt|_]; [lia|].
  f_equal. lia.
Qed.

Lemma skipn_is_suffix l (n : nat) :
  l = firstn n l ++ skipn n l /\ length (skipn n l) = length l - n.
Proof.
  split; [symmetry; apply firstn_skipn | apply length_skipn].
Qed.

End Slices.

(** C7, as the claim states it, fails: with [limit] left out the default
    of 10 applies, and a history of 11 records is not returned in full. *)
Lemma get_history_without_limit_is_not_full :
  let self := Sample.hydrated Sample.both_platforms Sample.eleven in
  length (history_of (state self)) = 11 /\
  length (get_history_default self) = 10 /\
  get_history_default self <> history_of (state self).
Proof.
  repeat split. intros Heq. apply (f_equal (@length _)) in Heq.
  vm_compute in Heq. discriminate.
Qed.

(** C7 (amended).  For a limit [n > 0], [get_history] returns the end of
    the history in its original order: the last [n] records, or all of them
    when there are fewer.  With the limit 0 (or [None]) it returns the whole
    history.  With the limit left out it returns the last 10 records. *)
Theorem get_history_window
  (self : GlobalRehydrationSystem) (n : Z) :
  let history := history_of (state self) in
  (0 < n)%Z ->
  (exists older,
     history = older ++ get_history self (Some n) /\
     length (get_history self (Some n)) = Nat.min (Z.to_nat n) (length history)) /\
  get_history self (Some 0%Z) = history /\
  get_history self None = history /\
  (exists older,
     history = older ++ get_history_default self /\
     length (get_history_default self) = Nat.min 10 (length history)).
Proof.
  intros history Hn.
  assert (Hwindow : forall k, (0 < k)%Z ->
            exists older,
              history = older ++ get_history self (Some k) /\
              length (get_history self (Some k))
              = Nat.min (Z.to_nat k) (length history)).
  { intros k Hk. unfold get_history.
    fold (history_of (state self)). fold history.
    destruct (Z.eqb_spec k 0) as [Hz|_]; [lia|].
    rewrite slice_from_minus by assumption.
    exists (firstn (length history - Z.to_nat k) history).
    destruct (skipn_is_suffix history (length history - Z.to_nat k)) as [Hs Hl].
    split; [exact Hs | rewrite Hl; lia]. }
  split; [now apply Hwindow|].
  split; [reflexivity|]. split; [reflexivity|].
  apply (Hwindow default_limit). reflexivity.
Qed.

Lemma get_history_window_witness :
  let self := Sample.hydrated Sample.both_platforms Sample.five in
  exists older,
    history_of (state self) = older ++ get_history self (Some 2%Z) /\
    length (get_history self (Some 2%Z)) = 2.
Proof.
  exact (proj1 (get_history_window
                  (Sample.hydrated Sample.both_platforms Sample.five)
                  2%Z ltac:(lia))).
Defined.

(** The scenario of the specification: of five records, the fourth and the
    fifth are returned, in that order. *)
Example get_history_two_of_five :
  map rec_timestamp
      (get_history (Sample.hydrated Sample.both_platforms Sample.five) (Some 2%Z))
  = ["t4"; "t5"].
Proof. reflexivity. Qed.

(** C10. A negative limit [-k] drops the [min k (length h)] oldest records
    and returns all the others, not a window of recent ones. *)
Theorem get_history_negative_limit
  (self : GlobalRehydrationSystem) (k : Z) :
  (0 < k)%Z ->
  get_history self (Some (- k)%Z)
  = skipn (Nat.min (Z.to_nat k) (length (history_of (state self))))
          (history_of (state self)).
Proof.
  intros Hk.
  change (get_history self (Some (- k)%Z))
    with (if (- k =? 0)%Z then history_of (state self)
          else slice_from (history_of (state self)) (- - k)).
  destruct (Z.eqb_spec (- k) 0) as [Hz|_]; [lia|].
  rewrite Z.opp_involutive. apply slice_from_plus. lia.
Qed.

Lemma get_history_negative_limit_witness :
  map rec_timestamp
      (get_history (Sample.hydrated Sample.both_platforms Sample.five)
                   (Some (- 2)%Z))
  = ["t3"; "t4"; "t5"].
Proof.
  exact (f_equal (map rec_timestamp)
           (get_history_negative_limit
              (Sample.hydrated Sample.both_platforms Sample.five) 2
              ltac:(lia))).
Defined.

(** ** Every way through [rehydrate] *)

Lemma detect_platform_two_values (w : Host) :
  _detect_platform w = "windows" \/ _detect_platform w = "linux".
Proof.
  unfold _detect_platform. cbv zeta.
  destruct (String.eqb _ "windows"); [now left|].
  destruct (str_in _ _); now right.
Qed.

Lemma first_for_platform_matches l platform_name script :
  first_for_platform l platform_name = Some script ->
  script_platform script = platform_name.
Proof.
  induction l as [|a l IH]; simpl; [discriminate|].
  destruct (String.eqb_spec (script_platform a) platform_name) as [He|_].
  - intros [= <-]. exact He.
  - exact IH.
Qed.

Lemma execs_app (a b : list Effect) : execs (a ++ b) = execs a ++ execs b.
Proof.
  induction a as [|[cmd|s] a IH]; simpl; [reflexivity | | assumption].
  now rewrite IH.
Qed.

Lemma already_hydrated_inv self environment force :
  already_hydrated self environment force = true ->
  force = false /\
  system_status (state self) = Some "hydrated" /\
  In environment (active_of (state self)).
Proof.
  unfold already_hydrated. destruct force; simpl; [discriminate|].
  destruct (get_eqb (system_status (state self)) "hydrated") eqn:Hs;
    [|discriminate].
  destruct (str_in environment _) eqn:Hin; [|discriminate].
  intros _. split; [reflexivity|]. split.
  - now apply get_eqb_eq.
  - now apply str_in_In.
Qed.

(** A console without U+2713 is without U+2717. *)
Lemma check_fails_cross_fails (w : Host) (e : Exception) :
  print_check w = Some e -> print_cross w <> None.
Proof.
  unfold print_check, print_cross. destruct (console w); discriminate.
Qed.

Lemma cross_prints_check_prints (w : Host) :
  print_cross w = None -> print_check w = None.
Proof.
  unfold print_check, print_cross. destruct (console w); congruence.
Qed.

(** The [except] block. *)
Lemma rehydrate_except_spec self w record ran e :
  let r := rehydrate_except self w record ran e in
  state (obj r) = append_history (state self) (as_error record e) /\
  config (obj r) = config self /\ manifest (obj r) = manifest self /\
  state_file (obj r) = Some (state (obj r)) /\
  effects r = ran ++ [WriteState (state (obj r))] /\
  reports_failure w (as_error record e) (value r).
Proof.
  unfold rehydrate_except, reports_failure. simpl.
  do 5 (split; [reflexivity|]).
  destruct (print_cross w); [reflexivity|]. eexists. repeat split.
Qed.

Lemma rehydrate_except_reports self w record ran e :
  reports_failure w (as_error record e)
    (value (rehydrate_except self w record ran e)).
Proof. apply rehydrate_except_spec. Qed.

Section Attempt.

Variables (self : GlobalRehydrationSystem) (w : Host).
Variables (environment : option string) (verify_integrity : option bool).
Variables (force : bool) (script_info : ScriptInfo).

Let env := resolve_environment self environment.
Let verify := resolve_verify_integrity self verify_integrity.

Hypothesis passes_gate : already_hydrated self env force = false.
Hypothesis has_script :
  _get_script_for_platform self (_detect_platform w) = Some script_info.

(** The record as it is created, and as it is after the script has run. *)
Let created : RehydrationRecord :=
  {| rec_timestamp := now_started w;
     rec_environment := env;
     rec_platform := _detect_platform w;
     rec_verify_integrity := verify;
     rec_status := "in_progress";
     rec_returncode := None;
     rec_output := None;
     rec_error := None |}.

Let finished (result : ExecutionResult) : RehydrationRecord :=
  {| rec_timestamp := now_started w;
     rec_environment := env;
     rec_platform := _detect_platform w;
     rec_verify_integrity := verify;
     rec_status := if exec_success result then "success" else "failed";
     rec_returncode := Some (exec_returncode result);
     rec_output := Some (exec_stdout result);
     rec_error := None |}.

Let updated (result : ExecutionResult) : GlobalState :=
  if exec_success result
  then mark_hydrated (state self) (now_finished w) env
  else state self.

(** [_execute_platform_script] raised. *)
Lemma rehydrate_when_raised (ran : list Effect) (e : Exception) :
  _execute_platform_script w script_info env verify = (ran, Raise e) ->
  rehydrate self w environment verify_integrity force
  = rehydrate_except self w created ran e.
Proof.
  intros Hexec. unfold rehydrate. cbv zeta.
  fold env. fold verify. rewrite passes_gate, has_script, Hexec.
  reflexivity.
Qed.

(** The script has run and the line that follows was printed. *)
Lemma rehydrate_when_completed (ran : list Effect) (result : ExecutionResult) :
  _execute_platform_script w script_info env verify = (ran, Return result) ->
  (if exec_success result then print_check w else print_cross w) = None ->
  let after := append_history (updated result) (finished result) in
  rehydrate self w environment verify_integrity force
  = {| obj := {| config := config self; state := after;
                 manifest := manifest self; state_file := Some after |};
       effects := ran ++ [WriteState after];
       value := Return {| res_success := exec_success result;
                          res_message :=
                            if exec_success result then "Rehydration completed"
                            else "Rehydration failed";
                          res_skipped := None;
                          res_details := Some (finished result) |} |}.
Proof.
  intros Hexec Hprint after. unfold rehydrate. cbv zeta.
  fold env. fold verify. rewrite passes_gate, has_script, Hexec.
  cbv beta iota. rewrite Hprint. reflexivity.
Qed.

(** The script has run and the line that follows could not be printed. *)
Lemma rehydrate_when_interrupted (ran : list Effect) (result : ExecutionResult)
  (raised : Exception) :
  _execute_platform_script w script_info env verify = (ran, Return result) ->
  (if exec_success result then print_check w else print_cross w) = Some raised ->
  rehydrate self w environment verify_integrity force
  = rehydrate_except (with_state self (updated result)) w (finished result)
      ran raised.
Proof.
  intros Hexec Hprint. unfold rehydrate. cbv zeta.
  fold env. fold verify. rewrite passes_gate, has_script, Hexec.
  cbv beta iota. rewrite Hprint. reflexivity.
Qed.

(** What [_execute_platform_script] returns when the process ran and its
    output was decoded. *)
Lemma execute_when_completed (returncode : Z) (stdout stderr : string) :
  let location := script_location w (script_path script_info) in
  let cmd := build_command script_info location env verify in
  path_exists w location = true ->
  subprocess_run w cmd = Completed returncode stdout stderr ->
  _execute_platform_script w script_info env verify
  = ([Exec cmd],
     Return {| exec_success := (returncode =? 0)%Z;
               exec_returncode := returncode;
               exec_stdout := stdout;
               exec_stderr := stderr |}).
Proof.
  intros location cmd Hexists Hrun. unfold _execute_platform_script.
  cbv zeta. fold location. rewrite Hexists. simpl. fold cmd.
  now rewrite Hrun.
Qed.

(** [subprocess.run] raised. *)
Lemma execute_when_failed (started : bool) (e : Exception) :
  let location := script_location w (script_path script_info) in
  let cmd := build_command script_info location env verify in
  path_exists w location = true ->
  subprocess_run w cmd = Failed started e ->
  _execute_platform_script w script_info env verify
  = (if started then [Exec cmd] else [], Raise e).
Proof.
  intros location cmd Hexists Hrun. unfold _execute_platform_script.
  cbv zeta. fold location. rewrite Hexists. simpl. fold cmd.
  now rewrite Hrun.
Qed.

(** The script is missing: [FileNotFoundError], and no process is started. *)
Lemma execute_when_missing :
  let location := script_location w (script_path script_info) in
  path_exists w location = false ->
  _execute_platform_script w script_info env verify
  = ([], Raise (FileNotFoundError ("Script not found: " ++ location)%string)).
Proof.
  intros location Hmissing. unfold _execute_platform_script.
  cbv zeta. fold location. now rewrite Hmissing.
Qed.

End Attempt.

(** The paths through [rehydrate]: skipped, no script for the platform, or
    an attempt.  An attempt appends one record and writes the state; it
    ends in the [except] block when the invocation raises or when the line
    that follows the run cannot be printed. *)
Lemma rehydrate_cases self w environment verify_integrity force :
  let r := rehydrate self w environment verify_integrity force in
  let env := resolve_environment self environment in
  let verify := resolve_verify_integrity self verify_integrity in
  (already_hydrated self env force = true /\
   obj r = self /\ effects r = [] /\
   exists res, value r = Return res /\ res_success res = true /\
               res_details res = None)
  \/
  (already_hydrated self env force = false /\
   _get_script_for_platform self (_detect_platform w) = None /\
   obj r = self /\ effects r = [] /\
   exists e, value r = Raise e)
  \/
  (exists script_info ran record,
     already_hydrated self env force = false /\
     _get_script_for_platform self (_detect_platform w) = Some script_info /\
     effects r = ran ++ [WriteState (state (obj r))] /\
     config (obj r) = config self /\ manifest (obj r) = manifest self /\
     state_file (obj r) = Some (state (obj r)) /\
     rec_environment record = env /\
     rec_platform record = _detect_platform w /\
     rec_verify_integrity record = verify /\
     let location := script_location w (script_path script_info) in
     let cmd := build_command script_info location env verify in
     ((* the invocation raised *)
      (errored record /\
       state (obj r) = append_history (state self) record /\
       reports_failure w record (value r) /\
       ((path_exists w location = false /\ ran = [])
        \/
        (path_exists w location = true /\
         exists started e,
           subprocess_run w cmd = Failed started e /\
           ran = if started then [Exec cmd] else [])))
      \/
      (* the script exited with another code than 0 *)
      (path_exists w location = true /\
       (exists returncode stdout stderr,
          subprocess_run w cmd = Completed returncode stdout stderr /\
          returncode <> 0%Z /\
          rec_returncode record = Some returncode /\
          rec_output record = Some stdout) /\
       ran = [Exec cmd] /\
       state (obj r) = append_history (state self) record /\
       reports_failure w record (value r) /\
       ((print_cross w = None /\ failed record)
        \/
        (exists raised,
           print_cross w = Some raised /\ interrupted record /\
           rec_error record = Some (str_exc raised))))
      \/
      (* the script exited with code 0 *)
      (path_exists w location = true /\
       (exists stdout stderr,
          subprocess_run w cmd = Completed 0 stdout stderr /\
          rec_returncode record = Some 0%Z /\
          rec_output record = Some stdout) /\
       ran = [Exec cmd] /\
       state (obj r)
       = append_history (mark_hydrated (state self) (now_finished w) env) record /\
       ((print_check w = None /\ succeeded record /\
         exists res,
           value r = Return res /\ res_success res = true /\
           res_skipped res = None /\ res_details res = Some record)
        \/
        (exists raised,
           print_check w = Some raised /\ interrupted record /\
           rec_error record = Some (str_exc raised) /\
           reports_failure w record (value r)))))).
Proof.
  intros r env verify. subst r.
  destruct (already_hydrated self env force) eqn:Hgate.
  { left. unfold rehydrate. cbv zeta. fold env. rewrite Hgate. simpl.
    repeat split. eexists. repeat split. }
  right.
  destruct (_get_script_for_platform self (_detect_platform w))
    as [script_info|] eqn:Hscript.
  2:{ left. unfold rehydrate. cbv zeta. fold env. rewrite Hgate, Hscript.
      simpl. repeat split. eexists. reflexivity. }
  right. exists script_info.
  set (location := script_location w (script_path script_info)).
  set (cmd := build_command script_info location env verify).
  set (created :=
         {| rec_timestamp := now_started w;
            rec_environment := env;
            rec_platform := _detect_platform w;
            rec_verify_integrity := verify;
            rec_status := "in_progress";
            rec_returncode := None;
            rec_output := None;
            rec_error := None |}).
  destruct (path_exists w location) eqn:Hexists.
  - destruct (subprocess_run w cmd) as [returncode stdout stderr|started e]
      eqn:Hrun.
    + pose proof (execute_when_completed self w environment verify_integrity
                    script_info returncode stdout stderr Hexists Hrun) as Hexec.
      set (result := {| exec_success := (returncode =? 0)%Z;
                        exec_returncode := returncode;
                        exec_stdout := stdout;
                        exec_stderr := stderr |}) in Hexec.
      set (finished :=
             {| rec_timestamp := now_started w;
                rec_environment := env;
                rec_platform := _detect_platform w;
                rec_verify_integrity := verify;
                rec_status := if (returncode =? 0)%Z then "success" else "failed";
                rec_returncode := Some returncode;
                rec_output := Some stdout;
                rec_error := None |}).
      set (updated := if (returncode =? 0)%Z
                      then mark_hydrated (state self) (now_finished w) env
                      else state self).
      destruct (if (returncode =? 0)%Z then print_check w else print_cross w)
        as [raised|] eqn:Hprint.
      * (* the line after the run could not be printed *)
        assert (Heq : rehydrate self w environment verify_integrity force
                      = rehydrate_except (with_state self updated) w finished
                          [Exec cmd] raised)
          by exact (rehydrate_when_interrupted self w environment
                      verify_integrity force script_info Hgate Hscript
                      [Exec cmd] result raised Hexec Hprint).
        rewrite Heq.
        pose proof (rehydrate_except_spec (with_state self updated) w finished
                      [Exec cmd] raised) as H.
        cbv zeta in H. destruct H as (Hs & Hc & Hm & Hf & He & Hv).
        exists [Exec cmd], (as_error finished raised).
        do 2 (split; [reflexivity|]). split; [exact He|].
        split; [exact Hc|]. split; [exact Hm|]. split; [exact Hf|].
        do 3 (split; [reflexivity|]).
        subst updated finished.
        destruct (Z.eqb_spec returncode 0) as [->|Hcode].
        -- right. right. split; [exact Hexists|].
           split; [exists stdout, stderr; now repeat split|].
           split; [reflexivity|]. split; [exact Hs|].
           right. exists raised. split; [exact Hprint|].
           split; [repeat split; discriminate|]. split; [reflexivity | exact Hv].
        -- right. left. split; [exact Hexists|].
           split; [exists returncode, stdout, stderr; now repeat split|].
           split; [reflexivity|]. split; [exact Hs|]. split; [exact Hv|].
           right. exists raised. split; [exact Hprint|].
           split; [repeat split; discriminate | reflexivity].
      * (* the [try] block ran to its end *)
        pose proof (rehydrate_when_completed self w environment
                      verify_integrity force script_info Hgate Hscript
                      [Exec cmd] result Hexec Hprint) as Heq.
        cbv zeta in Heq. rewrite Heq. simpl.
        exists [Exec cmd], finished.
        do 9 (split; [reflexivity|]).
        subst updated finished.
        destruct (Z.eqb_spec returncode 0) as [->|Hcode].
        -- right. right. split; [exact Hexists|].
           split; [exists stdout, stderr; now repeat split|].
           do 2 (split; [reflexivity|]).
           left. split; [exact Hprint|].
           split; [repeat split; discriminate|]. eexists. repeat split.
        -- right. left. split; [exact Hexists|].
           split; [exists returncode, stdout, stderr; now repeat split|].
           do 2 (split; [reflexivity|]).
           split.
           { unfold reports_failure. rewrite Hprint. eexists. repeat split. }
           left. split; [exact Hprint|].
           repeat split; try discriminate. now exists returncode.
    + pose proof (execute_when_failed self w environment verify_integrity
                    script_info started e Hexists Hrun) as Hexec.
      assert (Heq : rehydrate self w environment verify_integrity force
                    = rehydrate_except self w created
                        (if started then [Exec cmd] else []) e)
        by exact (rehydrate_when_raised self w environment verify_integrity
                    force script_info Hgate Hscript _ e Hexec).
      rewrite Heq.
      pose proof (rehydrate_except_spec self w created
                    (if started then [Exec cmd] else []) e) as H.
      cbv zeta in H. destruct H as (Hs & Hc & Hm & Hf & He & Hv).
      exists (if started then [Exec cmd] else []), (as_error created e).
      do 2 (split; [reflexivity|]). split; [exact He|].
      split; [exact Hc|]. split; [exact Hm|]. split; [exact Hf|].
      do 3 (split; [reflexivity|]).
      left. split; [repeat split; discriminate|]. split; [exact Hs|].
      split; [exact Hv|]. right. split; [exact Hexists|].
      now exists started, e.
  - pose proof (execute_when_missing self w environment verify_integrity
                  script_info Hexists) as Hexec.
    cbv zeta in Hexec.
    assert (Heq : rehydrate self w environment verify_integrity force
                  = rehydrate_except self w created []
                      (FileNotFoundError
                         ("Script not found: " ++ location)%string))
      by exact (rehydrate_when_raised self w environment verify_integrity
                  force script_info Hgate Hscript _ _ Hexec).
    rewrite Heq.
    pose proof (rehydrate_except_spec self w created []
                  (FileNotFoundError ("Script not found: " ++ location)%string))
      as H.
    cbv zeta in H. destruct H as (Hs & Hc & Hm & Hf & He & Hv).
    exists [], (as_error created
                  (FileNotFoundError ("Script not found: " ++ location)%string)).
    do 2 (split; [reflexivity|]). split; [exact He|].
    split; [exact Hc|]. split; [exact Hm|]. split; [exact Hf|].
    do 3 (split; [reflexivity|]).
    left. split; [repeat split; discriminate|]. split; [exact Hs|].
    split; [exact Hv|]. left. split; [exact Hexists | reflexivity].
Qed.

(** Every attempt appends one record and writes the state once. *)
Lemma attempt_appends_and_saves self w environment verify_integrity force
  script_info :
  already_hydrated self (resolve_environment self environment) force = false ->
  _get_script_for_platform self (_detect_platform w) = Some script_info ->
  let r := rehydrate self w environment verify_integrity force in
  exists ran record,
    effects r = ran ++ [WriteState (state (obj r))] /\
    writes ran = [] /\ length (execs ran) <= 1 /\
    history_of (state (obj r)) = history_of (state self) ++ [record] /\
    terminal (rec_status record) /\
    state_file (obj r) = Some (state (obj r)) /\
    config (obj r) = config self /\ manifest (obj r) = manifest self /\
    rec_environment record = resolve_environment self environment /\
    rec_verify_integrity record
    = resolve_verify_integrity self verify_integrity /\
    ((exists e, value r = Raise e)
     \/
     (exists res, value r = Return res /\ res_skipped res = None /\
                  res_details res = Some record)).
Proof.
  intros Hgate Hscript r.
  pose proof (rehydrate_cases self w environment verify_integrity force) as H.
  cbv zeta in H. fold r in H.
  destruct H as [(Hg & _)|[(_ & Hn & _)|H]]; [congruence | congruence |].
  destruct H as (si & ran & record & _ & _ & He & Hc & Hm & Hf & Henv & _
                 & Hver & Hways).
  exists ran, record. split; [exact He|].
  assert (Hvalue : (exists e, value r = Raise e)
                   \/
                   (exists res, value r = Return res /\ res_skipped res = None /\
                                res_details res = Some record)).
  { assert (Hrep : reports_failure w record (value r) ->
                   (exists e, value r = Raise e)
                   \/
                   (exists res, value r = Return res /\ res_skipped res = None /\
                                res_details res = Some record)).
    { unfold reports_failure. destruct (print_cross w) as [raised|].
      - intros ->. left. now exists raised.
      - intros (res & -> & _ & Hk & Hd). right. now exists res. }
    destruct Hways as [(_ & _ & Hv & _)|[(_ & _ & _ & _ & Hv & _)
                                        |(_ & _ & _ & _ & Hshape)]];
      [now apply Hrep | now apply Hrep |].
    destruct Hshape as [(_ & _ & res & -> & _ & Hk & Hd)|(raised & _ & _ & _ & Hv)];
      [right; now exists res | now apply Hrep]. }
  assert (Hrest : writes ran = [] /\ length (execs ran) <= 1 /\
                  history_of (state (obj r)) = history_of (state self) ++ [record] /\
                  terminal (rec_status record)).
  { unfold terminal.
    destruct Hways as [((Hst & _) & Hs & _ & Hran)|[Hways|Hways]].
    - rewrite Hs, Hst.
      destruct Hran as [(_ & ->)|(_ & started & e & _ & ->)];
        [|destruct started]; simpl; repeat split; auto.
    - destruct Hways as (_ & _ & -> & Hs & _ & Hshape). rewrite Hs.
      destruct Hshape as [(_ & Hst & _)|(raised & _ & (Hst & _) & _)];
        rewrite Hst; simpl; repeat split; auto.
    - destruct Hways as (_ & _ & -> & Hs & Hshape). rewrite Hs.
      destruct Hshape as [(_ & (Hst & _) & _)|(raised & _ & (Hst & _) & _)];
        rewrite Hst; simpl; repeat split; auto. }
  destruct Hrest as (Hw & Hx & Hh & Ht).
  repeat split; assumption.
Qed.

(** ** Attempts on a console without the marks *)

(** C3. With the registered script missing and a console that has no
    U+2717, the error record is appended and the state written, and then
    the [print] of the [except] block raises: [rehydrate] ends with a
    [UnicodeEncodeError] instead of returning a result with [success]
    false. *)
Theorem exception_leaves_the_except_block :
  let r := rehydrate Sample.fresh (Sample.redirected false (Completed 0 "" ""))
             None None false in
  value r
  = Raise (UnicodeError
             "'charmap' codec can't encode character '\u2717' in position 1: character maps to <undefined>") /\
  (forall res, value r <> Return res) /\
  map rec_status (history_of (state (obj r))) = ["error"] /\
  map rec_error (history_of (state (obj r)))
  = [Some "Script not found: C:/rehydrate/rehydrate.ps1"] /\
  state_file (obj r) = Some (state (obj r)).
Proof.
  repeat split. intros res. discriminate.
Qed.

(** C5. With a script that exits with code 1 and a console that has no
    U+2717, the [print] after the failed run raises inside the [try] block:
    the record is appended with status "error", not "failed" (it keeps the
    return code), and [rehydrate] raises; the status, the active
    environments and the time of the last rehydration are unchanged. *)
Theorem failed_run_is_recorded_as_error :
  let r := rehydrate Sample.fresh
             (Sample.redirected true (Completed 1 "" "disk full"))
             None None false in
  map rec_status (history_of (state (obj r))) = ["error"] /\
  map rec_returncode (history_of (state (obj r))) = [Some 1%Z] /\
  value r
  = Raise (UnicodeError
             "'charmap' codec can't encode character '\u2717' in position 1: character maps to <undefined>") /\
  system_status (state (obj r)) = system_status (state Sample.fresh) /\
  active_environments (state (obj r)) = active_environments (state Sample.fresh) /\
  last_rehydration (state (obj r)) = last_rehydration (state Sample.fresh).
Proof. repeat split. Qed.

(** ** What the record keeps of the output *)




(** ** Sequences of calls *)

Lemma run_calls_snoc self calls c :
  run_calls self (calls ++ [c])
  = let '(self1, done1, seen1) := run_calls self calls in
    let '(self2, done2, seen2) := call self1 c in
    (self2, done1 ++ done2, seen1 ++ [seen2]).
Proof.
  revert self. induction calls as [|c0 calls IH]; intros self; simpl.
  - destruct (call self c) as [[self2 done2] seen2].
    now rewrite app_nil_r.
  - destruct (call self c0) as [[self1 done1] seen1].
    rewrite IH.
    destruct (run_calls self1 calls) as [[selfn donen] seenn].
    destruct (call selfn c) as [[self2 done2] seen2].
    now rewrite app_assoc.
Qed.

Lemma since_last_reset_snoc seen s :
  since_last_reset (seen ++ [s])
  = if is_reset s then [] else since_last_reset seen ++ [s].
Proof.
  induction seen as [|a seen IH]; simpl.
  - now destruct (is_reset s).
  - rewrite existsb_app. simpl. rewrite orb_false_r.
    destruct (is_reset s); simpl.
    + now rewrite orb_true_r.
    + rewrite orb_false_r.
      destruct (existsb is_reset seen); [exact IH|].
      now destruct (is_reset a).
Qed.

Lemma Exists_snoc {A : Type} (P : A -> Prop) (l : list A) (a : A) :
  Exists P (l ++ [a]) <-> Exists P l \/ P a.
Proof.
  rewrite Exists_app, Exists_cons, Exists_nil. tauto.
Qed.

Lemma terminal_not_in_progress status :
  terminal status -> status <> "in_progress".
Proof. intros [->|[->| ->]]; discriminate. Qed.

Lemma history_of_append s record :
  history_of (append_history s record) = history_of s ++ [record].
Proof. reflexivity. Qed.

Lemma records_of_app (a b : list Seen) :
  records_of (a ++ b) = records_of a ++ records_of b.
Proof. apply flat_map_app. Qed.

Lemma unsuccessful_is_not_success record :
  errored record \/ failed record \/ interrupted record ->
  rec_status record <> "success".
Proof.
  intros [(Hs & _)|[(Hs & _)|(Hs & _)]]; rewrite Hs; discriminate.
Qed.

(** What the caller sees when the [except] block has ended the call. *)
Lemma seen_of_failure w record (v : Raises RehydrationResult) :
  reports_failure w record v ->
  rec_status record <> "success" ->
  let s := match v with
           | Return res => SawResult res
           | Raise e => SawException e
           end in
  is_reset s = false /\ ~ successful_attempt s /\
  (print_cross w = None -> records_of [s] = [record]).
Proof.
  unfold reports_failure. intros Hv Hst.
  destruct (print_cross w) as [raised|].
  - rewrite Hv. simpl. repeat split; [|discriminate].
    intros (res & r & Hs & _). discriminate.
  - destruct Hv as (res & -> & Hsucc & Hskip & Hd). simpl.
    split; [reflexivity|]. split.
    + intros (res' & r & Heq & Hd' & Hs). injection Heq as <-.
      rewrite Hd in Hd'. injection Hd' as <-. contradiction.
    + intros _. unfold records_of. simpl. now rewrite Hd.
Qed.

(** What a call does to the state, and what it writes. *)
Lemma call_state_cases self c :
  in_step self ->
  let '(self', done, s) := call self c in
  (state self' = state self /\ writes done = [] /\
   records_of [s] = [] /\ is_reset s = false /\ ~ successful_attempt s)
  \/
  (state self' = empty_state /\ writes done = [empty_state] /\ s = SawReset)
  \/
  (exists w environment verify_integrity force record,
     c = CallRehydrate w environment verify_integrity force /\
     writes done = [state self'] /\
     rec_environment record = resolve_environment self environment /\
     (rec_platform record = "windows" \/ rec_platform record = "linux") /\
     is_reset s = false /\
     let hydrated :=
       mark_hydrated (state self) (now_finished w) (rec_environment record) in
     ((state self' = append_history (state self) record /\
       (errored record \/ failed record \/ interrupted record) /\
       ~ successful_attempt s /\
       (print_cross w = None -> records_of [s] = [record]))
      \/
      (state self' = append_history hydrated record /\
       succeeded record /\ print_check w = None /\
       successful_attempt s /\ records_of [s] = [record])
      \/
      (state self' = append_history hydrated record /\
       interrupted record /\ print_check w <> None /\
       ~ successful_attempt s))).
Proof.
  intros Hin.
  destruct c as [w environment verify_integrity force| |]; simpl.
  - pose proof (rehydrate_cases self w environment verify_integrity force) as H.
    cbv zeta in H.
    destruct H as [(_ & -> & -> & res & -> & _ & Hd)
                  |[(_ & _ & -> & -> & e & ->)|H]].
    + left. unfold records_of. simpl. rewrite Hd. repeat split.
      intros (res' & r & Heq & Hd' & _). injection Heq as <-. congruence.
    + left. repeat split. intros (res' & r & Heq & _). discriminate.
    + right. right.
      destruct H as (si & ran & record & _ & _ & He & _ & _ & _ & Henv & Hp
                     & _ & Hways).
      exists w, environment, verify_integrity, force, record.
      split; [reflexivity|].
      assert (Hran : writes ran = []).
      { destruct Hways as [(_ & _ & _ & Hran)|[Hways|Hways]].
        - destruct Hran as [(_ & ->)|(_ & started & e & _ & ->)];
            [|destruct started]; reflexivity.
        - now destruct Hways as (_ & _ & -> & _).
        - now destruct Hways as (_ & _ & -> & _). }
      split; [now rewrite He, writes_app, Hran|].
      split; [exact Henv|].
      split; [rewrite Hp; apply detect_platform_two_values|].
      cbv zeta. rewrite Henv.
      destruct Hways as [(Hshape & Hs & Hv & _)|[Hways|Hways]].
      * assert (Hno : rec_status record <> "success")
          by (apply unsuccessful_is_not_success; now left).
        destruct (seen_of_failure w record _ Hv Hno) as (Hr & Hna & Hrec).
        split; [exact Hr|]. left. repeat split; auto.
      * destruct Hways as (_ & _ & _ & Hs & Hv & Hshape).
        assert (Hkind : errored record \/ failed record \/ interrupted record).
        { destruct Hshape as [(_ & Hf)|(raised & _ & Hi & _)]; auto. }
        pose proof (unsuccessful_is_not_success record Hkind) as Hno.
        destruct (seen_of_failure w record _ Hv Hno) as (Hr & Hna & Hrec).
        split; [exact Hr|]. left. repeat split; auto.
      * destruct Hways as (_ & _ & _ & Hs & Hshape).
        destruct Hshape as [(Hprint & Hok & res & -> & Hsucc & _ & Hd)
                           |(raised & Hprint & Hi & _ & Hv)].
        -- split; [reflexivity|]. right. left.
           split; [exact Hs|]. split; [exact Hok|]. split; [exact Hprint|].
           split.
           ++ exists res, record. repeat split; [exact Hd | apply Hok].
           ++ unfold records_of. simpl. now rewrite Hd.
        -- assert (Hno : rec_status record <> "success")
             by (apply unsuccessful_is_not_success; auto).
           destruct (seen_of_failure w record _ Hv Hno) as (Hr & Hna & _).
           split; [exact Hr|]. right. right.
           split; [exact Hs|]. split; [exact Hi|].
           split; [rewrite Hprint; discriminate | exact Hna].
  - right. left. repeat split.
  - left. simpl. rewrite Hin. repeat split.
    intros (res' & r & Heq & _). discriminate.
Qed.

Lemma call_keeps_in_step self c :
  in_step self -> in_step (fst (fst (call self c))).
Proof.
  intros Hin.
  destruct c as [w environment verify_integrity force| |]; simpl.
  - pose proof (rehydrate_cases self w environment verify_integrity force) as H.
    cbv zeta in H.
    destruct H as [(_ & -> & _)|[(_ & _ & -> & _)|H]]; [assumption..|].
    destruct H as (si & ran & record & _ & _ & _ & _ & _ & Hf & _).
    unfold in_step. now rewrite Hf.
  - reflexivity.
  - reflexivity.
Qed.

Lemma call_keeps_clean self c :
  in_step self ->
  no_in_progress (state self) ->
  no_in_progress (state (fst (fst (call self c)))) /\
  Forall no_in_progress (writes (snd (fst (call self c)))).
Proof.
  intros Hin Hclean. pose proof (call_state_cases self c Hin) as H.
  destruct (call self c) as [[self' done] s]. simpl.
  destruct H as [(-> & -> & _)|[(-> & -> & _)|H]].
  - split; [assumption | constructor].
  - assert (Hempty : no_in_progress empty_state) by constructor.
    split; [assumption | now repeat constructor].
  - destruct H as (w & environment & verify_integrity & force & record & _
                   & -> & _ & _ & _ & Hways).
    cbv zeta in Hways.
    assert (Hnew : no_in_progress (state self')).
    { unfold no_in_progress.
      assert (Hone : rec_status record <> "in_progress" /\
                     history_of (state self')
                     = history_of (state self) ++ [record]).
      { destruct Hways as [(-> & Hk & _)|[(-> & (Hs & _) & _)|(-> & (Hs & _) & _)]].
        - split; [|reflexivity].
          destruct Hk as [(Hs & _)|[(Hs & _)|(Hs & _)]]; rewrite Hs; discriminate.
        - split; [rewrite Hs; discriminate | reflexivity].
        - split; [rewrite Hs; discriminate | reflexivity]. }
      destruct Hone as [Hst ->]. apply Forall_app. split; [assumption|].
      now repeat constructor. }
    split; [assumption | now repeat constructor].
Qed.

Lemma run_calls_keeps_clean self calls :
  in_step self ->
  no_in_progress (state self) ->
  let '(self', done, _) := run_calls self calls in
  in_step self' /\ no_in_progress (state self') /\
  Forall no_in_progress (writes done).
Proof.
  revert self. induction calls as [|c calls IH]; intros self Hin Hclean; simpl.
  - repeat split; [assumption.. | constructor].
  - pose proof (call_keeps_in_step self c Hin) as Hin1.
    destruct (call_keeps_clean self c Hin Hclean) as [Hclean1 Hw1].
    destruct (call self c) as [[self1 done1] seen1]. simpl in *.
    specialize (IH self1 Hin1 Hclean1).
    destruct (run_calls self1 calls) as [[self2 done2] seen2].
    destruct IH as (Hin2 & Hclean2 & Hw2).
    repeat split; try assumption.
    rewrite writes_app. apply Forall_app. now split.
Qed.

(** C2. A call of [rehydrate] that reaches the script invocation returns
    with exactly one record appended to the history; the status of that
    record is "success", "failed" or "error"; the state is written once,
    after the record was appended.  And whatever calls are made on a system
    whose state file holds no "in_progress" record (or does not exist), no
    state ever written, and so no state file, holds such a record. *)
Theorem attempt_appends_one_terminal_record :
  (forall (self : GlobalRehydrationSystem) (w : Host)
          (environment : option string) (verify_integrity : option bool)
          (force : bool) (script_info : ScriptInfo),
      already_hydrated self (resolve_environment self environment) force = false ->
      _get_script_for_platform self (_detect_platform w) = Some script_info ->
      let r := rehydrate self w environment verify_integrity force in
      exists record,
        history_of (state (obj r)) = history_of (state self) ++ [record] /\
        terminal (rec_status record) /\
        writes (effects r) = [state (obj r)] /\
        state_file (obj r) = Some (state (obj r)))
  /\
  (forall (c : Config) (m : Manifest) (file : option GlobalState)
          (calls : list Call),
      no_in_progress (_load_state file) ->
      let '(self, done, _) := run_calls (init c m file) calls in
      Forall no_in_progress (writes done) /\
      no_in_progress (_load_state (state_file self))).
Proof.
  split.
  - intros self w environment verify_integrity force script_info Hgate Hscript r.
    destruct (attempt_appends_and_saves self w environment verify_integrity
                force script_info Hgate Hscript)
      as (ran & record & He & Hw & _ & Hh & Ht & Hf & _).
    exists record. split; [exact Hh|]. split; [exact Ht|].
    split; [|exact Hf]. fold r in He. now rewrite He, writes_app, Hw.
  - intros c m file calls Hclean.
    pose proof (run_calls_keeps_clean (init c m file) calls eq_refl Hclean) as H.
    destruct (run_calls (init c m file) calls) as [[self done] seen].
    destruct H as (Hin & Hs & Hw). split; [assumption|].
    unfold in_step in Hin. now rewrite Hin.
Qed.

Lemma attempt_appends_one_terminal_record_witness :
  (let r := rehydrate Sample.fresh (Sample.linux true (Completed 0 "done" ""))
              None None false in
   exists record,
     history_of (state (obj r)) = history_of (state Sample.fresh) ++ [record] /\
     terminal (rec_status record) /\
     writes (effects r) = [state (obj r)] /\
     state_file (obj r) = Some (state (obj r)))
  /\
  (let '(self, done, _) :=
     run_calls Sample.fresh
       [CallRehydrate (Sample.linux false (Completed 0 "" "")) None None false;
        CallRestart;
        CallRehydrate (Sample.linux true (Completed 3 "" "no space")) None None true;
        CallRehydrate (Sample.linux true (Completed 0 "done" "")) None None false;
        CallReset] in
   Forall no_in_progress (writes done) /\
   no_in_progress (_load_state (state_file self))).
Proof.
  split.
  - exact (proj1 attempt_appends_one_terminal_record
             Sample.fresh (Sample.linux true (Completed 0 "done" ""))
             None None false
             {| script_platform := "linux"; script_path := "rehydrate.sh" |}
             eq_refl eq_refl).
  - exact (proj2 attempt_appends_one_terminal_record
             Sample.cfg Sample.both_platforms None
             [CallRehydrate (Sample.linux false (Completed 0 "" "")) None None false;
              CallRestart;
              CallRehydrate (Sample.linux true (Completed 3 "" "no space")) None None true;
              CallRehydrate (Sample.linux true (Completed 0 "done" "")) None None false;
              CallReset]
             (Forall_nil _)).
Defined.

(** ** The status and the attempts *)

(** C6. On a console that has no U+2713, a run that exits with code 0 sets
    [system_status] to "hydrated" and is then recorded with status "error",
    because the [print] after the update raises inside the [try] block: the
    status is "hydrated" although no attempt with status "success" was made
    since the start. *)
Theorem hydrated_without_a_success :
  let '(self, _, seen) :=
    run_calls Sample.fresh
      [CallRehydrate (Sample.redirected true (Completed 0 "done" ""))
         None None false] in
  system_status (state self) = Some "hydrated" /\
  state_file self = Some (state self) /\
  map rec_status (history_of (state self)) = ["error"] /\
  ~ Exists successful_attempt (since_last_reset seen).
Proof.
  simpl. repeat split.
  intros Hex. inversion Hex as [s l (res & r & Hs & _)|s l Hl]; subst.
  - discriminate.
  - inversion Hl.
Qed.

(** The status along a run: hydrated, reset, still not hydrated after a
    failed run, hydrated again. *)
Example status_along_a_run :
  let host_ok := Sample.linux true (Completed 0 "done" "") in
  let host_bad := Sample.linux true (Completed 3 "" "no space") in
  map (fun calls =>
         system_status (state (fst (fst (run_calls Sample.fresh calls)))))
      [ [];
        [CallRehydrate host_ok None None false];
        [CallRehydrate host_ok None None false; CallReset];
        [CallRehydrate host_ok None None false; CallReset;
         CallRehydrate host_bad None None false];
        [CallRehydrate host_ok None None false; CallReset;
         CallRehydrate host_bad None None false;
         CallRehydrate host_ok None None false] ]
  = [Some "uninitialized"; Some "hydrated"; Some "uninitialized";
     Some "uninitialized"; Some "hydrated"].
Proof. reflexivity. Qed.

Lemma active_of_append s record :
  active_of (append_history s record) = active_of s.
Proof. reflexivity. Qed.

Lemma active_of_mark s now environment :
  active_of (mark_hydrated s now environment)
  = if str_in environment (active_of s) then active_of s
    else active_of s ++ [environment].
Proof.
  unfold active_of. simpl.
  now destruct (str_in environment (get_or (active_environments s) [])).
Qed.

Lemma In_active_of_mark s now environment x :
  In x (active_of (mark_hydrated s now environment))
  <-> In x (active_of s) \/ x = environment.
Proof.
  rewrite active_of_mark.
  destruct (str_in environment (active_of s)) eqn:Hin.
  - apply str_in_In in Hin. split; [tauto|]. intros [H| ->]; assumption.
  - rewrite in_app_iff. simpl. split.
    + intros [H|[<-|[]]]; [now left | now right].
    + intros [H| ->]; [now left | right; now left].
Qed.

(** ** Single calls *)



(** X2. [_get_script_for_platform] returns the first entry of the manifest
    registered for the platform: no entry before it has that platform, and
    [None] means that no entry at all has it (also when the manifest has no
    "scripts" key). *)
Theorem first_entry_for_platform_wins
  (self : GlobalRehydrationSystem) (platform_name : string) :
  let entries := get_or (scripts (manifest self)) [] in
  match _get_script_for_platform self platform_name with
  | Some script =>
      exists before after,
        entries = before ++ script :: after /\
        script_platform script = platform_name /\
        Forall (fun entry => script_platform entry <> platform_name) before
  | None =>
      Forall (fun entry => script_platform entry <> platform_name) entries
  end.
Proof.
  intros entries. unfold _get_script_for_platform. fold entries.
  induction entries as [|a rest IH]; simpl.
  - constructor.
  - destruct (String.eqb_spec (script_platform a) platform_name) as [He|Hn].
    + exists [], rest. repeat split; [assumption | constructor].
    + destruct (first_for_platform rest platform_name) as [script|].
      * destruct IH as (before & after & -> & Hp & Hall).
        exists (a :: before), after. repeat split; [assumption|].
        now constructor.
      * now constructor.
Qed.

(** X3. When the script exits with code 0 and its output is decoded, the
    state is updated whatever the console does: [system_status] is
    "hydrated", [last_rehydration] the time read after the run, and the
    environment is in [active_environments], added at the end unless it was
    there; the appended record keeps return code 0 and the output.  If the
    line with U+2713 is printed the record has status "success" and the
    result says [success]; if not, the record has status "error" with the
    message of the console, and the call ends as the [except] block ends. *)
Theorem successful_run_hydrates
  (self : GlobalRehydrationSystem) (w : Host)
  (environment : option string) (verify_integrity : option bool) (force : bool)
  (script_info : ScriptInfo) (stdout stderr : string) :
  already_hydrated self (resolve_environment self environment) force = false ->
  _get_script_for_platform self (_detect_platform w) = Some script_info ->
  path_exists w (script_location w (script_path script_info)) = true ->
  subprocess_run w
    (build_command script_info (script_location w (script_path script_info))
       (resolve_environment self environment)
       (resolve_verify_integrity self verify_integrity))
  = Completed 0 stdout stderr ->
  let r := rehydrate self w environment verify_integrity force in
  let env := resolve_environment self environment in
  system_status (state (obj r)) = Some "hydrated" /\
  last_rehydration (state (obj r)) = Some (now_finished w) /\
  In env (active_of (state (obj r))) /\
  active_of (state (obj r))
  = (if str_in env (active_of (state self)) then active_of (state self)
     else active_of (state self) ++ [env]) /\
  exists record,
    history_of (state (obj r)) = history_of (state self) ++ [record] /\
    rec_returncode record = Some 0%Z /\
    rec_output record = Some stdout /\
    match print_check w with
    | None =>
        rec_status record = "success" /\
        exists res, value r = Return res /\ res_success res = true /\
                    res_details res = Some record
    | Some raised =>
        rec_status record = "error" /\
        rec_error record = Some (str_exc raised) /\
        reports_failure w record (value r)
    end.
Proof.
  intros Hgate Hscript Hexists Hrun r env.
  pose proof (execute_when_completed self w environment verify_integrity
                script_info 0%Z stdout stderr Hexists Hrun) as Hexec.
  assert (Hactive : forall record,
            state (obj r)
            = append_history (mark_hydrated (state self) (now_finished w) env)
                record ->
            system_status (state (obj r)) = Some "hydrated" /\
            last_rehydration (state (obj r)) = Some (now_finished w) /\
            In env (active_of (state (obj r))) /\
            active_of (state (obj r))
            = (if str_in env (active_of (state self)) then active_of (state self)
               else active_of (state self) ++ [env]) /\
            history_of (state (obj r)) = history_of (state self) ++ [record]).
  { intros record ->. split; [reflexivity|]. split; [reflexivity|].
    rewrite active_of_append. split; [apply In_active_of_mark; now right|].
    split; [apply active_of_mark | reflexivity]. }
  destruct (print_check w) as [raised|] eqn:Hprint.
  - pose proof (rehydrate_when_interrupted self w environment verify_integrity
                  force script_info Hgate Hscript _ _ raised Hexec Hprint)
      as Heq.
    fold r in Heq.
    set (finished := {| rec_timestamp := now_started w;
                        rec_environment := env;
                        rec_platform := _detect_platform w;
                        rec_verify_integrity :=
                          resolve_verify_integrity self verify_integrity;
                        rec_status := "success";
                        rec_returncode := Some 0%Z;
                        rec_output := Some stdout;
                        rec_error := None |}).
    assert (Hs : state (obj r)
                 = append_history
                     (mark_hydrated (state self) (now_finished w) env)
                     (as_error finished raised))
      by (rewrite Heq; reflexivity).
    assert (Hv : reports_failure w (as_error finished raised) (value r))
      by (rewrite Heq; exact (rehydrate_except_reports _ w _ _ raised)).
    destruct (Hactive _ Hs) as (H1 & H2 & H3 & H4 & H5).
    do 4 (split; [assumption|]).
    exists (as_error finished raised). split; [exact H5|].
    repeat split. exact Hv.
  - pose proof (rehydrate_when_completed self w environment verify_integrity
                  force script_info Hgate Hscript _ _ Hexec Hprint) as Heq.
    cbv zeta in Heq. fold r in Heq.
    assert (Hs : state (obj r)
                 = append_history
                     (mark_hydrated (state self) (now_finished w) env)
                     {| rec_timestamp := now_started w;
                        rec_environment := env;
                        rec_platform := _detect_platform w;
                        rec_verify_integrity :=
                          resolve_verify_integrity self verify_integrity;
                        rec_status := "success";
                        rec_returncode := Some 0%Z;
                        rec_output := Some stdout;
                        rec_error := None |})
      by (rewrite Heq; reflexivity).
    destruct (Hactive _ Hs) as (H1 & H2 & H3 & H4 & H5).
    do 4 (split; [assumption|]).
    eexists. split; [exact H5|]. repeat split.
    rewrite Heq. eexists. repeat split.
Qed.

Lemma successful_run_hydrates_witness :
  let r := rehydrate Sample.fresh (Sample.linux true (Completed 0 "done" ""))
             (Some "staging") None false in
  system_status (state (obj r)) = Some "hydrated" /\
  last_rehydration (state (obj r)) = Some "2024-01-01T00:00:05+00:00" /\
  active_of (state (obj r)) = ["staging"].
Proof.
  destruct (successful_run_hydrates
              Sample.fresh (Sample.linux true (Completed 0 "done" ""))
              (Some "staging") None false
              {| script_platform := "linux"; script_path := "rehydrate.sh" |}
              "done" "" eq_refl eq_refl eq_refl eq_refl)
    as (Hs & Hl & _ & Ha & _).
  split; [exact Hs|]. split; [exact Hl | exact Ha].
Defined.



(** X5. After [reset] the empty state is in the object and in the file,
    [get_status] reports "uninitialized", no active environment, no last
    rehydration and 0 rehydrations, and the next [rehydrate] is never
    skipped: it raises, or it returns the record of an attempt, which is
    then the only record of the history. *)
Theorem reset_starts_over
  (self : GlobalRehydrationSystem) (w : Host)
  (environment : option string) (verify_integrity : option bool) (force : bool) :
  let cleared := obj (reset self) in
  let next := rehydrate cleared w environment verify_integrity force in
  state_file cleared = Some empty_state /\
  get_status cleared
  = {| st_system_status := "uninitialized";
       st_active_environments := [];
       st_last_rehydration := None;
       st_total_rehydrations := 0 |} /\
  ((exists e, value next = Raise e) \/
   (exists res record,
      value next = Return res /\ res_skipped res = None /\
      res_details res = Some record /\
      history_of (state (obj next)) = [record])).
Proof.
  intros cleared next. split; [reflexivity|]. split; [reflexivity|].
  destruct (already_hydrated cleared (resolve_environment cleared environment)
              force) eqn:Hgate.
  { apply already_hydrated_inv in Hgate. destruct Hgate as (_ & Hs & _).
    discriminate. }
  destruct (_get_script_for_platform cleared (_detect_platform w))
    as [script_info|] eqn:Hscript.
  - destruct (attempt_appends_and_saves cleared w environment verify_integrity
                force script_info Hgate Hscript)
      as (ran & record & _ & _ & _ & Hh & _ & _ & _ & _ & _ & _ & Hv).
    fold next in Hh, Hv.
    destruct Hv as [He|(res & Hv & Hk & Hd)]; [now left|].
    right. exists res, record. repeat split; assumption.
  - left. subst next. unfold rehydrate. cbv zeta. rewrite Hgate, Hscript.
    eexists. reflexivity.
Qed.

(** X6. Whatever command [rehydrate] runs follows the platform of the
    host: PowerShell with [-File], [-Environment] and the optional
    [-VerifyIntegrity] on a host resolved to "windows", and otherwise bash
    with [--environment=] and the optional [--verify]; the environment and
    the verification setting are the resolved ones. *)
Theorem command_follows_the_host
  (self : GlobalRehydrationSystem) (w : Host)
  (environment : option string) (verify_integrity : option bool) (force : bool)
  (cmd : list string) :
  In cmd (execs (effects (rehydrate self w environment verify_integrity force))) ->
  let env := resolve_environment self environment in
  let verify := resolve_verify_integrity self verify_integrity in
  exists location,
    cmd = if String.eqb (_detect_platform w) "windows" then
            ["powershell"; "-ExecutionPolicy"; "Bypass"; "-File"; location;
             "-Environment"; env]
              ++ (if verify then ["-VerifyIntegrity"] else [])
          else
            ["bash"; location; ("--environment=" ++ env)%string]
              ++ (if verify then ["--verify"] else []).
Proof.
  intros Hin env verify.
  pose proof (rehydrate_cases self w environment verify_integrity force) as H.
  cbv zeta in H.
  destruct H as [(_ & _ & He & _)|[(_ & _ & _ & He & _)|H]].
  - rewrite He in Hin. destruct Hin.
  - rewrite He in Hin. destruct Hin.
  - destruct H as (si & ran & record & _ & Hsi & He & _ & _ & _ & _ & _ & _
                   & Hways).
    rewrite He, execs_app in Hin. simpl in Hin. rewrite app_nil_r in Hin.
    apply first_for_platform_matches in Hsi.
    exists (script_location w (script_path si)).
    fold env verify in Hways.
    assert (Hcmd : In cmd (execs ran) ->
                   (ran = [] \/
                    ran = [Exec (build_command si
                                   (script_location w (script_path si))
                                   env verify)]) ->
                   cmd = build_command si (script_location w (script_path si))
                           env verify).
    { intros Hc [->| ->]; [destruct Hc|]. now destruct Hc as [<-|[]]. }
    assert (Hran : ran = [] \/
                   ran = [Exec (build_command si
                                  (script_location w (script_path si))
                                  env verify)]).
    { destruct Hways as [(_ & _ & _ & Hran)|[Hways|Hways]].
      - destruct Hran as [(_ & ->)|(_ & started & e & _ & ->)];
          [now left | destruct started; auto].
      - destruct Hways as (_ & _ & -> & _). now right.
      - destruct Hways as (_ & _ & -> & _). now right. }
    rewrite (Hcmd Hin Hran). unfold build_command. now rewrite Hsi.
Qed.

Lemma command_follows_the_host_witness :
  exists location,
    ["powershell"; "-ExecutionPolicy"; "Bypass"; "-File";
     "C:/rehydrate/rehydrate.ps1"; "-Environment"; "development";
     "-VerifyIntegrity"]
    = ["powershell"; "-ExecutionPolicy"; "Bypass"; "-File"; location;
       "-Environment"; "development"; "-VerifyIntegrity"].
Proof.
  exact (command_follows_the_host
           Sample.fresh SampleFiles.windows None None false
           ["powershell"; "-ExecutionPolicy"; "Bypass"; "-File";
            "C:/rehydrate/rehydrate.ps1"; "-Environment"; "development";
            "-VerifyIntegrity"]
           (or_introl eq_refl)).
Defined.

(** X7. One call of [rehydrate] runs at most one command.  Either it does
    nothing outside the process and returns the object as it was, or it
    appends exactly one record and writes the resulting state once, as the
    last thing it does, so that the file holds the state of the object. *)
Theorem rehydrate_acts_at_most_once
  (self : GlobalRehydrationSystem) (w : Host)
  (environment : option string) (verify_integrity : option bool) (force : bool) :
  let r := rehydrate self w environment verify_integrity force in
  length (execs (effects r)) <= 1 /\
  ((effects r = [] /\ obj r = self)
   \/
   (exists ran record,
      effects r = ran ++ [WriteState (state (obj r))] /\
      writes ran = [] /\
      state_file (obj r) = Some (state (obj r)) /\
      history_of (state (obj r)) = history_of (state self) ++ [record])).
Proof.
  intros r.
  destruct (already_hydrated self (resolve_environment self environment) force)
    eqn:Hgate.
  { subst r. unfold rehydrate. cbv zeta. rewrite Hgate. simpl.
    split; [lia | now left]. }
  destruct (_get_script_for_platform self (_detect_platform w))
    as [script_info|] eqn:Hscript.
  2:{ subst r. unfold rehydrate. cbv zeta. rewrite Hgate, Hscript. simpl.
      split; [lia | now left]. }
  destruct (attempt_appends_and_saves self w environment verify_integrity
              force script_info Hgate Hscript)
    as (ran & record & He & Hw & Hx & Hh & _ & Hf & _).
  fold r in He, Hh, Hf.
  split.
  - rewrite He, execs_app. simpl. now rewrite app_nil_r.
  - right. exists ran, record. repeat split; assumption.
Qed.

(** X8. Whatever the limit (positive, zero, negative or [None]),
    [get_history] returns an end piece of the history: it never reorders,
    repeats or invents records, and never returns more than the history
    holds. *)
Theorem get_history_is_an_end_piece
  (self : GlobalRehydrationSystem) (limit : option Z) :
  exists older,
    history_of (state self) = older ++ get_history self limit /\
    length (get_history self limit) <= length (history_of (state self)).
Proof.
  unfold get_history. fold (history_of (state self)).
  set (history := history_of (state self)).
  assert (Hskip : forall n, exists older,
             history = older ++ skipn n history /\
             length (skipn n history) <= length history).
  { intros n. exists (firstn n history).
    destruct (skipn_is_suffix history n) as [Hs Hl].
    split; [exact Hs | rewrite Hl; lia]. }
  destruct limit as [n|]; [|exists []; split; [reflexivity | lia]].
  destruct (n =? 0)%Z; [exists []; split; [reflexivity | lia]|].
  unfold slice_from. apply Hskip.
Qed.

(** ** Sequences of calls: what the state keeps *)

Lemma on_any_host (calls : list Call) : Forall (on_host (fun _ => True)) calls.
Proof.
  induction calls as [|c calls IH]; constructor; [|assumption].
  now destruct c.
Qed.

Section KeptByEveryCall.

Variable P : GlobalState -> Prop.

(** What is known of the hosts of the calls. *)
Variable Q : Host -> Prop.

Hypothesis kept_by_reset : P empty_state.

Hypothesis kept_by_unsuccessful :
  forall s record,
    P s -> errored record \/ failed record \/ interrupted record ->
    rec_platform record = "windows" \/ rec_platform record = "linux" ->
    P (append_history s record).

Hypothesis kept_by_successful :
  forall s now record,
    P s -> succeeded record ->
    rec_platform record = "windows" \/ rec_platform record = "linux" ->
    P (append_history (mark_hydrated s now (rec_environment record)) record).

Hypothesis kept_by_interrupted :
  forall w s now record,
    Q w -> print_check w <> None ->
    P s -> interrupted record ->
    rec_platform record = "windows" \/ rec_platform record = "linux" ->
    P (append_history (mark_hydrated s now (rec_environment record)) record).

Lemma call_keeps self c :
  on_host Q c -> in_step self -> P (state self) ->
  P (state (fst (fst (call self c)))).
Proof.
  intros HQ Hin HP. pose proof (call_state_cases self c Hin) as H.
  destruct (call self c) as [[self' done] s]. simpl.
  destruct H as [(-> & _)|[(-> & _)|H]]; [assumption | assumption |].
  destruct H as (w & environment & verify_integrity & force & record & ->
                 & _ & _ & Hp & _ & Hways).
  cbv zeta in Hways. simpl in HQ.
  destruct Hways as [(-> & Hk & _)|[(-> & Hk & _)|(-> & Hk & Hprint & _)]].
  - now apply kept_by_unsuccessful.
  - now apply kept_by_successful.
  - now apply (kept_by_interrupted w).
Qed.

Lemma run_calls_keeps self calls :
  Forall (on_host Q) calls -> in_step self -> P (state self) ->
  P (state (fst (fst (run_calls self calls)))).
Proof.
  revert self. induction calls as [|c calls IH]; intros self HQ Hin HP; simpl.
  - assumption.
  - inversion HQ as [|c' calls' Hc Hrest]; subst.
    pose proof (call_keeps_in_step self c Hin) as Hin1.
    pose proof (call_keeps self c Hc Hin HP) as HP1.
    destruct (call self c) as [[self1 done1] seen1]. simpl in *.
    specialize (IH self1 Hrest Hin1 HP1).
    destruct (run_calls self1 calls) as [[self2 done2] seen2]. exact IH.
Qed.

End KeptByEveryCall.

Lemma call_keeps_files self c :
  config (fst (fst (call self c))) = config self /\
  manifest (fst (fst (call self c))) = manifest self.
Proof.
  destruct c as [w environment verify_integrity force| |]; simpl;
    [|split; reflexivity..].
  pose proof (rehydrate_cases self w environment verify_integrity force) as H.
  cbv zeta in H.
  destruct H as [(_ & -> & _)|[(_ & _ & -> & _)|H]]; [now split..|].
  destruct H as (si & ran & record & _ & _ & _ & Hc & Hm & _).
  now split.
Qed.

(** X9. After any sequence of calls on an object built from the files,
    the configuration and the manifest are those read at the start, and
    building the object again from the files gives the very object the
    calls left: nothing the calls changed is missing from the state file. *)
Theorem restart_changes_nothing
  (c : Config) (m : Manifest) (file : option GlobalState) (calls : list Call) :
  let '(self, _, _) := run_calls (init c m file) calls in
  config self = c /\ manifest self = m /\
  init c m (state_file self) = self.
Proof.
  assert (H : forall self calls,
             in_step self ->
             let '(self', _, _) := run_calls self calls in
             config self' = config self /\ manifest self' = manifest self /\
             in_step self').
  { clear calls. intros self calls. revert self.
    induction calls as [|c0 calls IH]; intros self Hin; simpl.
    - repeat split. exact Hin.
    - pose proof (call_keeps_in_step self c0 Hin) as Hin1.
      destruct (call_keeps_files self c0) as [Hc Hm].
      destruct (call self c0) as [[self1 done1] seen1]. simpl in *.
      specialize (IH self1 Hin1).
      destruct (run_calls self1 calls) as [[self2 done2] seen2].
      destruct IH as (Hc2 & Hm2 & Hin2).
      repeat split; [congruence | congruence | exact Hin2]. }
  specialize (H (init c m file) calls eq_refl).
  destruct (run_calls (init c m file) calls) as [[self done] seen].
  destruct H as (Hc & Hm & Hin). simpl in Hc, Hm.
  split; [exact Hc|]. split; [exact Hm|].
  unfold in_step in Hin. destruct self as [c' s' m' f']. simpl in *.
  subst. reflexivity.
Qed.

(** X10. When the console of every host encodes U+2717, so that every
    attempt returns its record, the history is the list of the records
    returned by the attempts made since the last reset, in the order of the
    calls, after the records the state file held at the start when there
    was no reset: skipped calls and calls that find no script add nothing,
    and nothing is dropped or reordered.  [get_status] counts exactly these
    records. *)
Theorem history_is_the_attempts
  (c : Config) (m : Manifest) (file : option GlobalState) (calls : list Call) :
  Forall (on_host (fun w => print_cross w = None)) calls ->
  let '(self, _, seen) := run_calls (init c m file) calls in
  history_of (state self)
  = (if existsb is_reset seen then [] else history_of (_load_state file))
      ++ records_of (since_last_reset seen) /\
  st_total_rehydrations (get_status self)
  = (if existsb is_reset seen then 0 else length (history_of (_load_state file)))
    + length (records_of (since_last_reset seen)).
Proof.
  intros Hhosts.
  assert (H : let '(self, _, seen) := run_calls (init c m file) calls in
              in_step self /\
              history_of (state self)
              = (if existsb is_reset seen then []
                 else history_of (_load_state file))
                  ++ records_of (since_last_reset seen)).
  { induction calls as [|c0 calls IH] using rev_ind.
    - simpl. split; [reflexivity | now rewrite app_nil_r].
    - apply Forall_app in Hhosts. destruct Hhosts as [Hhosts Hc0].
      inversion Hc0 as [|c' l' Hhost _]; subst. specialize (IH Hhosts).
      rewrite run_calls_snoc.
      destruct (run_calls (init c m file) calls) as [[self1 done1] seen1].
      destruct IH as [Hin1 Hh1].
      pose proof (call_keeps_in_step self1 c0 Hin1) as Hin2.
      pose proof (call_state_cases self1 c0 Hin1) as Hc.
      destruct (call self1 c0) as [[self2 done2] s]. simpl in Hin2.
      split; [exact Hin2|].
      rewrite since_last_reset_snoc, existsb_app. simpl existsb.
      rewrite orb_false_r.
      destruct Hc as [(-> & _ & Hr & -> & _)|[(-> & _ & ->)|Hc]].
      + rewrite orb_false_r. cbv iota.
        rewrite records_of_app, Hr, app_nil_r. exact Hh1.
      + simpl. now rewrite orb_true_r.
      + destruct Hc as (w & environment & verify_integrity & force & record
                        & -> & _ & _ & _ & -> & Hways).
        cbv zeta in Hways. simpl in Hhost. cbv iota. rewrite orb_false_r.
        assert (Hh2 : history_of (state self2)
                      = history_of (state self1) ++ [record] /\
                      records_of [s] = [record]).
        { destruct Hways as [(-> & _ & _ & Hr)|[(-> & _ & _ & _ & Hr)
                                               |(_ & _ & Hprint & _)]].
          - split; [reflexivity | now apply Hr].
          - split; [reflexivity | exact Hr].
          - elim Hprint. now apply cross_prints_check_prints. }
        destruct Hh2 as [Hh2 Hr].
        rewrite Hh2, Hh1, records_of_app, Hr. now rewrite app_assoc. }
  destruct (run_calls (init c m file) calls) as [[self done] seen].
  destruct H as [_ Hh]. split; [exact Hh|].
  change (st_total_rehydrations (get_status self))
    with (length (history_of (state self))).
  rewrite Hh, length_app. now destruct (existsb is_reset seen).
Qed.

Lemma history_is_the_attempts_witness :
  let '(self, _, seen) :=
    run_calls Sample.fresh
      [CallRehydrate (Sample.linux true (Completed 0 "done" ""))
         (Some "staging") None false;
       CallRehydrate (Sample.linux true (Completed 0 "done" ""))
         (Some "staging") None false;
       CallRehydrate (Sample.linux false (Completed 0 "" ""))
         (Some "testing") None false] in
  history_of (state self) = [] ++ records_of (since_last_reset seen) /\
  st_total_rehydrations (get_status self)
  = 0 + length (records_of (since_last_reset seen)).
Proof.
  exact (history_is_the_attempts
           Sample.cfg Sample.both_platforms None
           [CallRehydrate (Sample.linux true (Completed 0 "done" ""))
              (Some "staging") None false;
            CallRehydrate (Sample.linux true (Completed 0 "done" ""))
              (Some "staging") None false;
            CallRehydrate (Sample.linux false (Completed 0 "" ""))
              (Some "testing") None false]
           ltac:(repeat constructor)).
Defined.

(** X11. [active_environments] never gets a duplicate: when the state
    file holds none at the start (or does not exist), the list has none
    after any sequence of calls. *)
Theorem active_environments_stay_distinct
  (c : Config) (m : Manifest) (file : option GlobalState) (calls : list Call) :
  NoDup (active_of (_load_state file)) ->
  let '(self, _, _) := run_calls (init c m file) calls in
  NoDup (active_of (state self)).
Proof.
  intros Hstart.
  assert (Hu : forall s record,
             NoDup (active_of s) ->
             errored record \/ failed record \/ interrupted record ->
             rec_platform record = "windows" \/ rec_platform record = "linux" ->
             NoDup (active_of (append_history s record))).
  { intros s record Hs _ _. now rewrite active_of_append. }
  assert (Hk : forall s now record,
             NoDup (active_of s) ->
             NoDup (active_of (append_history
                                 (mark_hydrated s now (rec_environment record))
                                 record))).
  { intros s now record Hs. rewrite active_of_append, active_of_mark.
    destruct (str_in (rec_environment record) (active_of s)) eqn:Hin;
      [assumption|].
    apply NoDup_app; [assumption | repeat constructor; intros [] |].
    intros a Ha [<-|[]]. apply str_in_In in Ha. congruence. }
  pose proof (run_calls_keeps (fun s => NoDup (active_of s)) (fun _ => True)
                (NoDup_nil _) Hu
                (fun s now record Hs _ _ => Hk s now record Hs)
                (fun w s now record _ _ Hs _ _ => Hk s now record Hs)
                (init c m file) calls (on_any_host calls) eq_refl Hstart) as H.
  now destruct (run_calls (init c m file) calls) as [[self done] seen].
Qed.

Lemma active_environments_stay_distinct_witness :
  let '(self, _, _) :=
    run_calls Sample.fresh
      [CallRehydrate (Sample.linux true (Completed 0 "done" ""))
         (Some "staging") None false;
       CallRehydrate (Sample.linux true (Completed 0 "done" ""))
         (Some "staging") None true;
       CallRehydrate (Sample.linux true (Completed 0 "done" ""))
         (Some "production") None false;
       CallRehydrate (Sample.linux true (Completed 0 "done" ""))
         (Some "staging") None true] in
  NoDup (active_of (state self)).
Proof.
  exact (active_environments_stay_distinct
           Sample.cfg Sample.both_platforms None
           [CallRehydrate (Sample.linux true (Completed 0 "done" ""))
              (Some "staging") None false;
            CallRehydrate (Sample.linux true (Completed 0 "done" ""))
              (Some "staging") None true;
            CallRehydrate (Sample.linux true (Completed 0 "done" ""))
              (Some "production") None false;
            CallRehydrate (Sample.linux true (Completed 0 "done" ""))
              (Some "staging") None true]
           (NoDup_nil _)).
Defined.

(** X12. When the console of every host encodes U+2713, the active
    environments are exactly the environments of the records with status
    "success" in the history: when this holds of the state file at the
    start (it does of no file and of a reset one), it holds after any
    sequence of calls. *)
Theorem active_environments_are_the_successes
  (c : Config) (m : Manifest) (file : option GlobalState) (calls : list Call) :
  Forall (on_host (fun w => print_check w = None)) calls ->
  active_matches_history (_load_state file) ->
  let '(self, _, _) := run_calls (init c m file) calls in
  active_matches_history (state self).
Proof.
  intros Hhosts Hstart.
  assert (He : active_matches_history empty_state).
  { intros x. split; [intros [] | intros (r & [] & _)]. }
  assert (Hu : forall s record,
             active_matches_history s ->
             errored record \/ failed record \/ interrupted record ->
             rec_platform record = "windows" \/ rec_platform record = "linux" ->
             active_matches_history (append_history s record)).
  { intros s record Hs Hno _ x.
    rewrite active_of_append, history_of_append, (Hs x).
    apply unsuccessful_is_not_success in Hno.
    split.
    - intros (r & Hr & Hok). exists r. split; [|exact Hok].
      apply in_or_app. now left.
    - intros (r & Hr & Hst & Henv). apply in_app_or in Hr.
      destruct Hr as [Hr|[<-|[]]]; [now exists r | contradiction]. }
  assert (Hk : forall s now record,
             active_matches_history s -> succeeded record ->
             rec_platform record = "windows" \/ rec_platform record = "linux" ->
             active_matches_history
               (append_history (mark_hydrated s now (rec_environment record))
                  record)).
  { intros s now record Hs (Hst & _) _ x.
    rewrite active_of_append, history_of_append, In_active_of_mark.
    change (history_of (mark_hydrated s now (rec_environment record)))
      with (history_of s).
    rewrite (Hs x). split.
    - intros [(r & Hr & Hok)| ->].
      + exists r. split; [|exact Hok]. apply in_or_app. now left.
      + exists record. split; [|now split]. apply in_or_app. right. now left.
    - intros (r & Hr & Hrs & Henv). apply in_app_or in Hr.
      destruct Hr as [Hr|[<-|[]]]; [left; now exists r | now right]. }
  pose proof (run_calls_keeps active_matches_history
                (fun w => print_check w = None) He Hu Hk
                (fun w s now record Hq Hprint _ _ _ =>
                   False_ind _ (Hprint Hq))
                (init c m file) calls Hhosts eq_refl Hstart) as H.
  now destruct (run_calls (init c m file) calls) as [[self done] seen].
Qed.

Lemma active_environments_are_the_successes_witness :
  let '(self, _, _) :=
    run_calls Sample.fresh
      [CallRehydrate (Sample.linux true (Completed 0 "done" ""))
         (Some "staging") None false;
       CallRehydrate (Sample.linux true (Completed 2 "" "no space"))
         (Some "production") None false;
       CallRehydrate (Sample.linux false (Completed 0 "" ""))
         (Some "testing") None false] in
  active_matches_history (state self).
Proof.
  apply (active_environments_are_the_successes
           Sample.cfg Sample.both_platforms None
           [CallRehydrate (Sample.linux true (Completed 0 "done" ""))
              (Some "staging") None false;
            CallRehydrate (Sample.linux true (Completed 2 "" "no space"))
              (Some "production") None false;
            CallRehydrate (Sample.linux false (Completed 0 "" ""))
              (Some "testing") None false]).
  - repeat constructor.
  - intros x. split; [intros [] | intros (r & [] & _)].
Defined.

(** X13. [system_status], [last_rehydration] and [active_environments]
    are set and cleared together: from a state file where the status is
    "hydrated" with a time and an active environment, or "uninitialized"
    with neither (no file, a reset file), the same holds after any sequence
    of calls. *)
Theorem status_time_and_environments_go_together
  (c : Config) (m : Manifest) (file : option GlobalState) (calls : list Call) :
  set_together (_load_state file) ->
  let '(self, _, _) := run_calls (init c m file) calls in
  set_together (state self).
Proof.
  intros Hstart.
  assert (He : set_together empty_state) by (right; repeat split).
  assert (Hu : forall s record,
             set_together s ->
             errored record \/ failed record \/ interrupted record ->
             rec_platform record = "windows" \/ rec_platform record = "linux" ->
             set_together (append_history s record)).
  { intros s record Hs _ _. exact Hs. }
  assert (Hk : forall s now record,
             set_together
               (append_history (mark_hydrated s now (rec_environment record))
                  record)).
  { intros s now record. left. split; [reflexivity|].
    split; [discriminate|].
    rewrite active_of_append. intros Hnil.
    assert (Hin : In (rec_environment record)
                     (active_of (mark_hydrated s now (rec_environment record))))
      by (apply In_active_of_mark; now right).
    rewrite Hnil in Hin. destruct Hin. }
  pose proof (run_calls_keeps set_together (fun _ => True) He Hu
                (fun s now record _ _ _ => Hk s now record)
                (fun w s now record _ _ _ _ _ => Hk s now record)
                (init c m file) calls (on_any_host calls) eq_refl Hstart) as H.
  now destruct (run_calls (init c m file) calls) as [[self done] seen].
Qed.

Lemma status_time_and_environments_go_together_witness :
  let '(self, _, _) :=
    run_calls (Sample.hydrated Sample.both_platforms Sample.five)
      [CallRehydrate (Sample.linux true (Completed 2 "" "no space"))
         (Some "staging") None false;
       CallReset;
       CallRehydrate (Sample.linux true (Completed 0 "done" ""))
         (Some "staging") None false] in
  set_together (state self).
Proof.
  apply (status_time_and_environments_go_together
           Sample.cfg Sample.both_platforms
           (Some (Sample.hydrated_state Sample.five))
           [CallRehydrate (Sample.linux true (Completed 2 "" "no space"))
              (Some "staging") None false;
            CallReset;
            CallRehydrate (Sample.linux true (Completed 0 "done" ""))
              (Some "staging") None false]).
  left. repeat split; discriminate.
Defined.

(** X14. Every record [rehydrate] writes has one of four shapes: status
    "success" with return code 0 and an output; status "failed" with a
    return code other than 0 and an output; status "error" with an error
    text and neither return code nor output (the invocation raised);
    status "error" with an error text, a return code and an output (the
    line after the run could not be printed); and its platform is
    "windows" or "linux".  When the records of the state file at the start
    have these shapes, so have all records after any sequence of calls. *)
Theorem records_keep_their_shape
  (c : Config) (m : Manifest) (file : option GlobalState) (calls : list Call) :
  Forall well_formed (history_of (_load_state file)) ->
  let '(self, _, _) := run_calls (init c m file) calls in
  Forall well_formed (history_of (state self)).
Proof.
  intros Hstart.
  assert (Hone : forall s record,
             Forall well_formed (history_of s) ->
             succeeded record \/ failed record \/ errored record
             \/ interrupted record ->
             rec_platform record = "windows" \/ rec_platform record = "linux" ->
             Forall well_formed (history_of s ++ [record])).
  { intros s record Hs Hr Hp. apply Forall_app. split; [assumption|].
    constructor; [|constructor]. now split. }
  pose proof (run_calls_keeps (fun s => Forall well_formed (history_of s))
                (fun _ => True) (Forall_nil _)
                (fun s record Hs Hr Hp =>
                   Hone s record Hs
                     match Hr with
                     | or_introl e => or_intror (or_intror (or_introl e))
                     | or_intror (or_introl f) => or_intror (or_introl f)
                     | or_intror (or_intror i) =>
                         or_intror (or_intror (or_intror i))
                     end Hp)
                (fun s now record Hs Hr Hp =>
                   Hone s record Hs (or_introl Hr) Hp)
                (fun w s now record _ _ Hs Hr Hp =>
                   Hone s record Hs (or_intror (or_intror (or_intror Hr))) Hp)
                (init c m file) calls (on_any_host calls) eq_refl Hstart) as H.
  now destruct (run_calls (init c m file) calls) as [[self done] seen].
Qed.

Lemma records_keep_their_shape_witness :
  let '(self, _, _) :=
    run_calls Sample.fresh
      [CallRehydrate (Sample.linux true (Completed 0 "done" ""))
         (Some "staging") None false;
       CallRehydrate (Sample.redirected true (Completed 2 "" "no space"))
         (Some "production") None false;
       CallRehydrate (Sample.linux false (Completed 0 "" ""))
         (Some "testing") None false] in
  Forall well_formed (history_of (state self)).
Proof.
  exact (records_keep_their_shape
           Sample.cfg Sample.both_platforms None
           [CallRehydrate (Sample.linux true (Completed 0 "done" ""))
              (Some "staging") None false;
            CallRehydrate (Sample.redirected true (Completed 2 "" "no space"))
              (Some "production") None false;
            CallRehydrate (Sample.linux false (Completed 0 "" ""))
              (Some "testing") None false]
           (Forall_nil _)).
Defined.

(** X21. When the console of every host encodes U+2713: from the initial
    state (no state file, or the file a reset wrote), after any sequence of
    calls of [rehydrate] and [reset], with the program started again any
    number of times in between, [system_status] is "hydrated" if and only
    if an attempt with status "success" was made since the last reset (or
    since the start when there was no reset). *)
Theorem hydrated_iff_success_since_reset
  (c : Config) (m : Manifest) (file : option GlobalState) (calls : list Call) :
  Forall (on_host (fun w => print_check w = None)) calls ->
  _load_state file = empty_state ->
  let '(self, _, seen) := run_calls (init c m file) calls in
  system_status (state self) = Some "hydrated"
  <-> Exists successful_attempt (since_last_reset seen).
Proof.
  intros Hhosts Hfile.
  assert (H : let '(self, _, seen) := run_calls (init c m file) calls in
              in_step self /\ status_tracks self seen).
  { induction calls as [|c0 calls IH] using rev_ind.
    - change (in_step (init c m file) /\ status_tracks (init c m file) []).
      split; [reflexivity|]. right.
      change (state (init c m file)) with (_load_state file). rewrite Hfile.
      split; [reflexivity|]. intros Hex. inversion Hex.
    - apply Forall_app in Hhosts. destruct Hhosts as [Hhosts Hc0].
      inversion Hc0 as [|c' l' Hhost _]; subst. specialize (IH Hhosts).
      rewrite run_calls_snoc.
      destruct (run_calls (init c m file) calls) as [[self1 done1] seen1].
      destruct IH as [Hin1 Htr].
      pose proof (call_keeps_in_step self1 c0 Hin1) as Hin2.
      pose proof (call_state_cases self1 c0 Hin1) as Hc.
      destruct (call self1 c0) as [[self2 done2] s]. simpl in Hin2.
      split; [exact Hin2|].
      unfold status_tracks in *. rewrite since_last_reset_snoc.
      destruct Hc as [(-> & _ & _ & -> & Hno)|[(-> & _ & ->)|Hc]].
      + rewrite Exists_snoc. tauto.
      + simpl is_reset. cbv iota. right. split; [reflexivity|].
        intros Hex. inversion Hex.
      + destruct Hc as (w & environment & verify_integrity & force & record
                        & -> & _ & _ & _ & -> & Hways).
        cbv zeta in Hways. simpl in Hhost. rewrite Exists_snoc.
        destruct Hways as [(-> & _ & Hno & _)|[(-> & _ & _ & Hyes & _)
                                              |(_ & _ & Hprint & _)]].
        * assert (Hsame : system_status (append_history (state self1) record)
                          = system_status (state self1)) by reflexivity.
          rewrite Hsame. tauto.
        * left. split; [reflexivity | now right].
        * contradiction. }
  destruct (run_calls (init c m file) calls) as [[self done] seen].
  destruct H as [_ [[Hs Hex]|[Hs Hex]]].
  - tauto.
  - split; [|tauto]. rewrite Hs. discriminate.
Qed.

Lemma hydrated_iff_success_since_reset_witness :
  let '(self, _, seen) :=
    run_calls Sample.fresh
      [CallRehydrate (Sample.linux true (Completed 0 "done" "")) None None false;
       CallReset;
       CallRehydrate (Sample.linux true (Completed 3 "" "no space")) None None false;
       CallRestart;
       CallRehydrate (Sample.linux true (Completed 0 "done" "")) None None false;
       CallRehydrate (Sample.linux false (Completed 0 "" "")) None None true] in
  system_status (state self) = Some "hydrated"
  <-> Exists successful_attempt (since_last_reset seen).
Proof.
  exact (hydrated_iff_success_since_reset
           Sample.cfg Sample.both_platforms None
           [CallRehydrate (Sample.linux true (Completed 0 "done" "")) None None false;
            CallReset;
            CallRehydrate (Sample.linux true (Completed 3 "" "no space")) None None false;
            CallRestart;
            CallRehydrate (Sample.linux true (Completed 0 "done" "")) None None false;
            CallRehydrate (Sample.linux false (Completed 0 "" "")) None None true]
           ltac:(repeat constructor) eq_refl).
Defined.

(** ** The command line *)

Lemma rehydrate_file_is_last_write self w environment verify_integrity force :
  let r := rehydrate self w environment verify_integrity force in
  state_file (obj r) = last (map Some (writes (effects r))) (state_file self).
Proof.
  intros r.
  pose proof (rehydrate_cases self w environment verify_integrity force) as H.
  cbv zeta in H. fold r in H.
  destruct H as [(_ & Ho & He & _)|[(_ & _ & Ho & He & _)|H]].
  - now rewrite He, Ho.
  - now rewrite He, Ho.
  - destruct H as (si & ran & record & Hgate & Hscript & _).
    destruct (attempt_appends_and_saves self w environment verify_integrity
                force si Hgate Hscript)
      as (ran' & record' & He & Hw & _ & _ & _ & Hf & _).
    fold r in He, Hf. rewrite He, writes_app, Hw, Hf. reflexivity.
Qed.

(** X15. After a run of the program the state file is the last state the
    run wrote, or the file as it was when the run wrote nothing; and only
    the [rehydrate] command and a confirmed [reset] run or write anything:
    [status], [history], a [reset] without [--confirm] and a command line
    without a command leave everything as it is. *)
Theorem only_rehydrate_and_confirmed_reset_act
  (files : Files) (w : Host) (args : option Command) :
  let x := main files w args in
  left_state_file x
  = last (map Some (writes (performed x))) (state_json files) /\
  match args with
  | Some (Rehydrate _ _ _ _) => True
  | Some (Reset true) => True
  | _ => performed x = [] /\ left_state_file x = state_json files
  end.
Proof.
  intros x. subst x.
  destruct args as [[environment verify no_verify force| |limit|[|]]|]; simpl;
    try (repeat split; reflexivity).
  split; [|exact I].
  apply (rehydrate_file_is_last_write (startup files)).
Qed.

(** X16. The exit code of the [rehydrate] command is 0 or 1.  After exit
    code 0 the state file says "hydrated" and lists the resolved
    environment as active (it was already so, or the script has just
    succeeded).  After exit code 1 the last record of the state file is the
    record of this attempt, for the resolved environment, with status
    "failed" or "error". *)
Theorem exit_code_of_rehydrate
  (files : Files) (w : Host)
  (environment : option string) (verify no_verify force : bool) :
  let x := main files w (Some (Rehydrate environment verify no_verify force)) in
  let env := resolve_environment (startup files) environment in
  (forall z, code x = Return z -> z = 0%Z \/ z = 1%Z) /\
  (code x = Return 0%Z ->
   exists s, left_state_file x = Some s /\
             system_status s = Some "hydrated" /\ In env (active_of s)) /\
  (code x = Return 1%Z ->
   exists s older record,
     left_state_file x = Some s /\
     history_of s = older ++ [record] /\
     rec_environment record = env /\
     (errored record \/ failed record)).
Proof.
  intros x env. subst x. simpl.
  set (verify_integrity := if verify then Some true
                           else if no_verify then Some false else None).
  pose proof (rehydrate_cases (startup files) w environment verify_integrity
                force) as H.
  cbv zeta in H. fold env in H.
  set (r := rehydrate (startup files) w environment verify_integrity force) in *.
  destruct H as [(Hgate & Ho & _ & res & Hv & Hs & _)
                |[(_ & _ & _ & _ & e & Hv)|H]].
  - rewrite Hv, Hs, Ho.
    split; [intros z [= <-]; now left|]. split; [|discriminate].
    intros _. apply already_hydrated_inv in Hgate.
    destruct Hgate as (_ & Hst & Hin). simpl in *.
    destruct (state_json files) as [s|]; [|discriminate].
    exists s. repeat split; assumption.
  - rewrite Hv. repeat split; discriminate.
  - destruct H as (si & ran & record & _ & _ & _ & _ & _ & Hf & Henv & _ & _
                   & Hways).
    rewrite Hf.
    assert (Hfail : forall s0,
              state (obj r) = append_history s0 record ->
              history_of s0 = history_of (state (startup files)) ->
              errored record \/ failed record ->
              reports_failure w record (value r) ->
              print_cross w = None ->
              (forall z, match value r with
                         | Return result =>
                             Return (if res_success result then 0%Z else 1%Z)
                         | Raise e => Raise e
                         end = Return z -> z = 0%Z \/ z = 1%Z) /\
              (match value r with
               | Return result =>
                   Return (if res_success result then 0%Z else 1%Z)
               | Raise e => Raise e
               end = Return 0%Z ->
               exists s, Some (state (obj r)) = Some s /\
                         system_status s = Some "hydrated" /\
                         In env (active_of s)) /\
              (match value r with
               | Return result =>
                   Return (if res_success result then 0%Z else 1%Z)
               | Raise e => Raise e
               end = Return 1%Z ->
               exists s older record0,
                 Some (state (obj r)) = Some s /\
                 history_of s = older ++ [record0] /\
                 rec_environment record0 = env /\
                 (errored record0 \/ failed record0))).
    { intros s0 Hs Hh Hshape Hrep Hprint. unfold reports_failure in Hrep.
      rewrite Hprint in Hrep. destruct Hrep as (res & -> & -> & _ & _).
      split; [intros z [= <-]; now right|]. split; [discriminate|].
      intros _. exists (state (obj r)), (history_of s0), record.
      rewrite Hs. repeat split; assumption. }
    assert (Hraise : forall raised,
              print_cross w = Some raised ->
              reports_failure w record (value r) ->
              (forall z, match value r with
                         | Return result =>
                             Return (if res_success result then 0%Z else 1%Z)
                         | Raise e => Raise e
                         end = Return z -> z = 0%Z \/ z = 1%Z) /\
              (match value r with
               | Return result =>
                   Return (if res_success result then 0%Z else 1%Z)
               | Raise e => Raise e
               end = Return 0%Z ->
               exists s, Some (state (obj r)) = Some s /\
                         system_status s = Some "hydrated" /\
                         In env (active_of s)) /\
              (match value r with
               | Return result =>
                   Return (if res_success result then 0%Z else 1%Z)
               | Raise e => Raise e
               end = Return 1%Z ->
               exists s older record0,
                 Some (state (obj r)) = Some s /\
                 history_of s = older ++ [record0] /\
                 rec_environment record0 = env /\
                 (errored record0 \/ failed record0))).
    { intros raised Hprint Hrep. unfold reports_failure in Hrep.
      rewrite Hprint in Hrep. rewrite Hrep. repeat split; discriminate. }
    destruct Hways as [(Hshape & Hs & Hv & _)|[Hways|Hways]].
    + destruct (print_cross w) as [raised|] eqn:Hprint.
      * now apply (Hraise raised).
      * apply (Hfail (state (startup files))); auto.
    + destruct Hways as (_ & _ & _ & Hs & Hv & Hshape).
      destruct Hshape as [(Hprint & Hfailed)|(raised & Hprint & _)].
      * apply (Hfail (state (startup files))); auto.
      * now apply (Hraise raised).
    + destruct Hways as (_ & _ & _ & Hs & Hshape).
      destruct Hshape as [(_ & _ & res & -> & -> & _)|(raised & Hprint & _ & _ & Hv)].
      * split; [intros z [= <-]; now left|]. split; [|discriminate].
        intros _. exists (state (obj r)). split; [reflexivity|].
        rewrite Hs. split; [reflexivity|].
        rewrite active_of_append. apply In_active_of_mark. now right.
      * destruct (print_cross w) as [raised'|] eqn:Hcross.
        -- now apply (Hraise raised').
        -- elim (check_fails_cross_fails w raised Hprint Hcross).
Qed.

Lemma exit_code_of_rehydrate_witness :
  let x := main SampleFiles.with_manifest
             (Sample.linux true (Completed 0 "done" ""))
             (Some (Rehydrate (Some "staging") false false false)) in
  exists s, left_state_file x = Some s /\
            system_status s = Some "hydrated" /\ In "staging" (active_of s).
Proof.
  exact (proj1 (proj2 (exit_code_of_rehydrate
                         SampleFiles.with_manifest
                         (Sample.linux true (Completed 0 "done" ""))
                         (Some "staging") false false false))
           eq_refl).
Defined.

(** X17. The record the [rehydrate] command writes names the environment
    given on the command line, else the one of the configuration file,
    else "development"; verification is on with [--verify], else off with
    [--no-verify], else as the configuration file says, else on. *)
Theorem defaults_of_the_command_line
  (files : Files) (w : Host)
  (environment : option string) (verify no_verify force : bool)
  (s : GlobalState) :
  let x := main files w (Some (Rehydrate environment verify no_verify force)) in
  In s (writes (performed x)) ->
  exists older record,
    history_of s = older ++ [record] /\
    rec_environment record
    = match environment, config_json files with
      | Some name, _ => name
      | None, Some cfg => get_or (default_environment cfg) "development"
      | None, None => "development"
      end /\
    rec_verify_integrity record
    = if verify then true
      else if no_verify then false
      else match config_json files with
           | Some cfg => get_or (verify_integrity_by_default cfg) true
           | None => true
           end.
Proof.
  intros x. subst x. simpl.
  set (verify_integrity := if verify then Some true
                           else if no_verify then Some false else None).
  set (r := rehydrate (startup files) w environment verify_integrity force).
  destruct (already_hydrated (startup files)
              (resolve_environment (startup files) environment) force)
    eqn:Hgate.
  { subst r. unfold rehydrate. cbv zeta. rewrite Hgate. intros []. }
  destruct (_get_script_for_platform (startup files) (_detect_platform w))
    as [script_info|] eqn:Hscript.
  2:{ subst r. unfold rehydrate. cbv zeta. rewrite Hgate, Hscript. intros []. }
  destruct (attempt_appends_and_saves (startup files) w environment
              verify_integrity force script_info Hgate Hscript)
    as (ran & record & He & Hw & _ & Hh & _ & _ & _ & _ & Henv & Hver & _).
  fold r in He, Hh.
  rewrite He, writes_app, Hw. intros [<-|[]].
  exists (history_of (state (startup files))), record.
  split; [exact Hh|]. rewrite Henv, Hver. subst verify_integrity.
  unfold resolve_environment, resolve_verify_integrity, startup. simpl.
  split.
  - destruct environment, (config_json files); reflexivity.
  - destruct verify, no_verify, (config_json files); reflexivity.
Qed.

Lemma defaults_of_the_command_line_witness :
  let x := main SampleFiles.with_manifest
             (Sample.linux true (Completed 0 "done" ""))
             (Some (Rehydrate None true true false)) in
  exists older record,
    history_of (append_history
                  (mark_hydrated empty_state "2024-01-01T00:00:05+00:00"
                     "development")
                  {| rec_timestamp := "2024-01-01T00:00:00+00:00";
                     rec_environment := "development";
                     rec_platform := "linux";
                     rec_verify_integrity := true;
                     rec_status := "success";
                     rec_returncode := Some 0%Z;
                     rec_output := Some "done";
                     rec_error := None |})
    = older ++ [record] /\
    rec_environment record = "development" /\
    rec_verify_integrity record = true.
Proof.
  exact (defaults_of_the_command_line
           SampleFiles.with_manifest
           (Sample.linux true (Completed 0 "done" ""))
           None true true false _ (or_introl eq_refl)).
Defined.



(** ** Attempts on a console that prints the marks *)

(** X19. On a console that encodes U+2717, an exception raised by
    [_execute_platform_script] does not leave [rehydrate]: a record with
    status "error" and the message of the exception is appended,
    [system_status] and [active_environments] keep their values, the state
    is written to the file, and the result returned has [success] false. *)
Theorem rehydrate_records_exception
  (self : GlobalRehydrationSystem) (w : Host)
  (environment : option string) (verify_integrity : option bool) (force : bool)
  (script_info : ScriptInfo) (ran : list Effect) (e : Exception) :
  print_cross w = None ->
  already_hydrated self (resolve_environment self environment) force = false ->
  _get_script_for_platform self (_detect_platform w) = Some script_info ->
  _execute_platform_script w script_info
    (resolve_environment self environment)
    (resolve_verify_integrity self verify_integrity) = (ran, Raise e) ->
  let r := rehydrate self w environment verify_integrity force in
  exists record res,
    value r = Return res /\
    res_success res = false /\
    res_details res = Some record /\
    history_of (state (obj r)) = history_of (state self) ++ [record] /\
    rec_status record = "error" /\
    rec_error record = Some (str_exc e) /\
    system_status (state (obj r)) = system_status (state self) /\
    active_environments (state (obj r)) = active_environments (state self) /\
    state_file (obj r) = Some (state (obj r)) /\
    writes (effects r) = [state (obj r)].
Proof.
  intros Hprint Hgate Hscript Hexec r. subst r.
  rewrite (rehydrate_when_raised self w environment verify_integrity force
             script_info Hgate Hscript ran e Hexec).
  pose proof (execute_writes_nothing w script_info
                (resolve_environment self environment)
                (resolve_verify_integrity self verify_integrity)) as Hnone.
  rewrite Hexec in Hnone. simpl in Hnone.
  unfold rehydrate_except. simpl. rewrite Hprint, writes_app, Hnone.
  do 2 eexists. repeat split.
Qed.

(** The registered script is not on disk. *)
Lemma rehydrate_records_exception_witness :
  let r := rehydrate Sample.fresh (Sample.linux false (Completed 0 "" ""))
             None None false in
  exists record res,
    value r = Return res /\
    res_success res = false /\
    res_details res = Some record /\
    history_of (state (obj r)) = history_of (state Sample.fresh) ++ [record] /\
    rec_status record = "error" /\
    rec_error record
    = Some (str_exc (FileNotFoundError
                       "Script not found: /opt/rehydrate/rehydrate.sh")) /\
    system_status (state (obj r)) = system_status (state Sample.fresh) /\
    active_environments (state (obj r))
    = active_environments (state Sample.fresh) /\
    state_file (obj r) = Some (state (obj r)) /\
    writes (effects r) = [state (obj r)].
Proof.
  exact (rehydrate_records_exception
           Sample.fresh (Sample.linux false (Completed 0 "" ""))
           None None false
           {| script_platform := "linux"; script_path := "rehydrate.sh" |}
           []
           (FileNotFoundError "Script not found: /opt/rehydrate/rehydrate.sh")
           eq_refl eq_refl eq_refl eq_refl).
Defined.

(** X20. When the script exits with a code other than 0 and its output is
    decoded, the appended record carries that code, and [system_status],
    [active_environments] and [last_rehydration] keep their values; the
    status of the record is "failed" when the line with U+2717 is printed,
    and "error" when it is not. *)
Theorem failed_run_keeps_status
  (self : GlobalRehydrationSystem) (w : Host)
  (environment : option string) (verify_integrity : option bool) (force : bool)
  (script_info : ScriptInfo) (returncode : Z) (stdout stderr : string) :
  already_hydrated self (resolve_environment self environment) force = false ->
  _get_script_for_platform self (_detect_platform w) = Some script_info ->
  path_exists w (script_location w (script_path script_info)) = true ->
  subprocess_run w
    (build_command script_info (script_location w (script_path script_info))
       (resolve_environment self environment)
       (resolve_verify_integrity self verify_integrity))
  = Completed returncode stdout stderr ->
  returncode <> 0%Z ->
  let r := rehydrate self w environment verify_integrity force in
  exists record,
    history_of (state (obj r)) = history_of (state self) ++ [record] /\
    rec_status record
    = match print_cross w with
      | None => "failed"
      | Some _ => "error"
      end /\
    rec_returncode record = Some returncode /\
    system_status (state (obj r)) = system_status (state self) /\
    active_environments (state (obj r)) = active_environments (state self) /\
    last_rehydration (state (obj r)) = last_rehydration (state self).
Proof.
  intros Hgate Hscript Hexists Hrun Hcode r. subst r.
  pose proof (execute_when_completed self w environment verify_integrity
                script_info returncode stdout stderr Hexists Hrun) as Hexec.
  apply Z.eqb_neq in Hcode.
  destruct (print_cross w) as [raised|] eqn:Hprint.
  - assert (Hp : (if (returncode =? 0)%Z then print_check w else print_cross w)
                 = Some raised) by now rewrite Hcode.
    rewrite (rehydrate_when_interrupted self w environment verify_integrity
               force script_info Hgate Hscript _ _ raised Hexec Hp).
    unfold rehydrate_except. simpl. rewrite Hcode.
    eexists. repeat split.
  - assert (Hp : (if (returncode =? 0)%Z then print_check w else print_cross w)
                 = None) by now rewrite Hcode.
    pose proof (rehydrate_when_completed self w environment verify_integrity
                  force script_info Hgate Hscript _ _ Hexec Hp) as Heq.
    cbv zeta in Heq. rewrite Heq. simpl. rewrite Hcode.
    eexists. repeat split.
Qed.

(** Exit code 1 and "disk full" on the standard error stream. *)
Lemma failed_run_keeps_status_witness :
  let r := rehydrate Sample.fresh
             (Sample.linux true (Completed 1 "" "disk full")) None None false in
  exists record,
    history_of (state (obj r)) = history_of (state Sample.fresh) ++ [record] /\
    rec_status record = "failed" /\
    rec_returncode record = Some 1%Z /\
    system_status (state (obj r)) = system_status (state Sample.fresh) /\
    active_environments (state (obj r))
    = active_environments (state Sample.fresh) /\
    last_rehydration (state (obj r)) = last_rehydration (state Sample.fresh).
Proof.
  exact (failed_run_keeps_status
           Sample.fresh (Sample.linux true (Completed 1 "" "disk full"))
           None None false
           {| script_platform := "linux"; script_path := "rehydrate.sh" |}
           1%Z "" "disk full" eq_refl eq_refl eq_refl eq_refl
           ltac:(discriminate)).
Defined.
